(** * Project_AllJob: the "run all" job of a project

    A shallow embedding of [.yamato/ruamel/jobs/projects/project_all.py].
    The class builds one CI job that depends on every per-platform test job of
    a project: a name, an ordered list of dependency references and a pinned
    revision.  The code is a straight-line script over two collaborators, the
    naming functions of [utils/namer.py] and the builder [YMLJob]; both are
    called for their results and, for the builder, for their effect on the job
    under construction.  The embedding keeps the order of evaluation of the
    source: every dictionary access on [editor] and every collaborator call is
    recorded, in order, in a trace that survives an exception. *)

From stdpp Require Import base strings list gmap.

(** ** Python strings *)

(** A Python string is either a plain [str] or ruamel's
    [DoubleQuotedScalarString] (imported by the source as [dss]), the [str]
    subclass that the YAML emitter writes between double quotes. *)
Inductive scalar : Type :=
  | Str (s : string)
  | Dss (s : string).

#[global] Instance scalar_eq_dec : EqDecision scalar.
Proof. solve_decision. Defined.

(** [str(v)], which is also what an f-string inserts for [{v}]. *)
Definition text (v : scalar) : string :=
  match v with
  | Str s => s
  | Dss s => s
  end.

Definition is_dss (v : scalar) : bool :=
  match v with
  | Str _ => false
  | Dss _ => true
  end.

(** An f-string is a sequence of literal pieces and formatted values; its
    value is always a plain [str], whatever the class of the values. *)
Inductive piece : Type :=
  | Lit (s : string)
  | Fmt (v : scalar).

Definition piece_text (p : piece) : string :=
  match p with
  | Lit s => s
  | Fmt v => text v
  end.

Definition fstring (ps : list piece) : scalar :=
  Str (foldr (λ p acc, piece_text p +:+ acc) EmptyString ps).

(** ** Data handled by the job *)

(** One element [d] of [dependencies_in_all]: a dictionary of which the
    source reads the three keys ["platform_name"], ["api_name"] and
    ["test_platform_names"], the last one holding a list.  An entry is taken
    to carry the three of them, so that [d["platform_name"]] is the
    projection [platform_name d]. *)
Record DependencyEntry : Type := {
  platform_name : scalar;
  api_name : scalar;
  test_platform_names : list scalar
}.

(** The dictionary [{'path': ..., 'rerun': ...}] appended per test platform. *)
Record DependencyReference : Type := {
  path : scalar;
  rerun : scalar
}.

#[global] Instance DependencyReference_eq_dec : EqDecision DependencyReference.
Proof. solve_decision. Defined.

(** What the builder has assembled: the content behind [YMLJob.yml]. *)
Record JobDefinition : Type := {
  name : option scalar;
  dependencies : list DependencyReference;
  custom_revision : option scalar
}.

(** ** Exceptions, observable events and the monad of the script *)

Inductive exn : Type :=
  | KeyError (key : string).

Inductive result (A : Type) : Type :=
  | Ok (a : A)
  | Raise (e : exn).
Arguments Ok {A} a.
Arguments Raise {A} e.

Inductive event : Type :=
  | Getitem_editor (key : string)
  | Call_project_job_id_all (project_name editor_version : scalar)
  | Call_project_filepath_specific (project_name platform_name api_name : scalar)
  | Call_project_job_id_test
      (project_name platform_name api_name test_platform_name editor_version : scalar)
  | YMLJob_init
  | YMLJob_set_name (name : scalar)
  | YMLJob_add_dependencies (dependencies : list DependencyReference)
  | YMLJob_add_var_custom_revision (editor_version : scalar).

#[global] Instance event_eq_dec : EqDecision event.
Proof. solve_decision. Defined.

(** A computation yields a value or an exception, together with the events
    it performed up to that point. *)
Definition M (A : Type) : Type := (result A * list event)%type.

#[global] Instance M_ret : MRet M := λ A a, (Ok a, []).

#[global] Instance M_bind : MBind M := λ A B f m,
  match m with
  | (Ok a, t) => let '(r, t') := f a in (r, t ++ t')
  | (Raise e, t) => (Raise e, t)
  end.

Definition raise {A : Type} (e : exn) : M A := (Raise e, []).

Definition log (e : event) : M unit := (Ok tt, [e]).

(** [for x in xs: body], where [body] updates the local state [s]. *)
Fixpoint for_in {A S : Type} (xs : list A) (body : S → A → M S) (s : S) : M S :=
  match xs with
  | [] => mret s
  | x :: xs' => s' ← body s x; for_in xs' body s'
  end.

(** [editor[key]]: a [KeyError] when the key is absent. *)
Definition getitem (editor : gmap string scalar) (key : string) : M scalar :=
  log (Getitem_editor key);;
  match editor !! key with
  | Some v => mret v
  | None => raise (KeyError key)
  end.

(** ** The collaborators *)

(** [utils/namer.py] is not among the sources.  Its three functions used here
    are taken as parameters: pure functions from strings to a string. *)
Class Namer : Type := {
  project_job_id_all : scalar → scalar → scalar;
  project_filepath_specific : scalar → scalar → scalar → scalar;
  project_job_id_test : scalar → scalar → scalar → scalar → scalar → scalar
}.

Module YMLJob.

(** Modelled from the spec: the class [YMLJob] of [utils/yml_job.py], which
    is not among the sources.  It is the job-definition builder: an object
    with the operations [set_name], [add_dependencies] and
    [add_var_custom_revision] and a read accessor [yml] yielding the
    assembled job definition, made of a name, an ordered sequence of
    dependency references and a custom revision. *)
Record t : Type := { yml : JobDefinition }.

Definition __init__ : M t :=
  log YMLJob_init;;
  mret {| yml := {| name := None; dependencies := []; custom_revision := None |} |}.

Definition set_name (self : t) (new_name : scalar) : M t :=
  log (YMLJob_set_name new_name);;
  mret {| yml := {| name := Some new_name;
                    dependencies := dependencies (yml self);
                    custom_revision := custom_revision (yml self) |} |}.

Definition add_dependencies (self : t) (new : list DependencyReference) : M t :=
  log (YMLJob_add_dependencies new);;
  mret {| yml := {| name := name (yml self);
                    dependencies := dependencies (yml self) ++ new;
                    custom_revision := custom_revision (yml self) |} |}.

Definition add_var_custom_revision (self : t) (editor_version : scalar) : M t :=
  log (YMLJob_add_var_custom_revision editor_version);;
  mret {| yml := {| name := name (yml self);
                    dependencies := dependencies (yml self);
                    custom_revision := Some editor_version |} |}.

End YMLJob.

(** ** The class of the source *)

Module Project_AllJob.

(** The attributes [__init__] sets on [self]. *)
Record t : Type := {
  project_name : scalar;
  job_id : scalar;
  yml : JobDefinition
}.

Section WithNamer.
Context `{Namer}.

(** The body of the inner loop; [dependencies] is the list being appended
    to.  The arguments of a call are evaluated before the call, and the
    items of the dictionary display from left to right. *)
Definition append_dependency (project_name : scalar) (editor : gmap string scalar)
    (d : DependencyEntry) (dependencies : list DependencyReference)
    (test_platform_name : scalar) : M (list DependencyReference) :=
  log (Call_project_filepath_specific project_name (platform_name d) (api_name d));;
  let file_name := project_filepath_specific project_name (platform_name d) (api_name d) in
  editor_version ← getitem editor "version";
  log (Call_project_job_id_test project_name (platform_name d) (api_name d)
         test_platform_name editor_version);;
  let job_id := project_job_id_test project_name (platform_name d) (api_name d)
                  test_platform_name editor_version in
  rerun_strategy ← getitem editor "rerun_strategy";
  mret (dependencies ++
          [ {| path := fstring [Fmt file_name; Lit "#"; Fmt job_id];
               rerun := rerun_strategy |} ]).

Definition get_job_definition (project_name : scalar) (editor : gmap string scalar)
    (dependencies_in_all : list DependencyEntry) : M YMLJob.t :=
  (* define dependencies *)
  dependencies ←
    for_in dependencies_in_all
      (λ dependencies d,
         for_in (test_platform_names d)
           (append_dependency project_name editor d) dependencies)
      [];
  (* construct job *)
  job ← YMLJob.__init__;
  editor_version ← getitem editor "version";
  job ← YMLJob.set_name job
          (fstring [Lit "All "; Fmt project_name; Lit " CI - "; Fmt editor_version]);
  job ← YMLJob.add_dependencies job dependencies;
  editor_version ← getitem editor "version";
  job ← YMLJob.add_var_custom_revision job editor_version;
  mret job.

Definition __init__ (project_name : scalar) (editor : gmap string scalar)
    (dependencies_in_all : list DependencyEntry) : M t :=
  editor_version ← getitem editor "version";
  log (Call_project_job_id_all project_name editor_version);;
  let job_id := project_job_id_all project_name editor_version in
  job ← get_job_definition project_name editor dependencies_in_all;
  mret {| project_name := project_name; job_id := job_id; yml := YMLJob.yml job |}.

End WithNamer.

End Project_AllJob.

Import Project_AllJob.

(** ** Vocabulary of the statements *)

(** The pairs the nested loops visit, in the order they visit them. *)
Definition iteration_order (dependencies_in_all : list DependencyEntry)
    : list (DependencyEntry * scalar) :=
  d ← dependencies_in_all; pair d <$> test_platform_names d.

(** [sum(len(e.test_platform_names) for e in dependency_entries)]. *)
Definition count_test_platform_names (dependencies_in_all : list DependencyEntry) : nat :=
  sum_list_with (λ e, length (test_platform_names e)) dependencies_in_all.

(** Where the references of entry number [i] start in the output. *)
Definition offset (dependencies_in_all : list DependencyEntry) (i : nat) : nat :=
  count_test_platform_names (take i dependencies_in_all).

(** The events that involve the builder: its construction and the three
    calls that change it. *)
Definition is_YMLJob_event (e : event) : bool :=
  match e with
  | YMLJob_init | YMLJob_set_name _ | YMLJob_add_dependencies _
  | YMLJob_add_var_custom_revision _ => true
  | _ => false
  end.

(** The trace ends with the construction of the job: the builder is created,
    then receives [set_name], [add_dependencies] and
    [add_var_custom_revision] in that order, with nothing but the two reads
    of [editor["version"]] around them, and is not involved before. *)
Definition calls_in_fixed_order (tr : list event) : Prop :=
  ∃ pre new_name refs editor_version,
    tr = pre ++ [ YMLJob_init;
                  Getitem_editor "version";
                  YMLJob_set_name new_name;
                  YMLJob_add_dependencies refs;
                  Getitem_editor "version";
                  YMLJob_add_var_custom_revision editor_version ] ∧
    Forall (λ e, is_YMLJob_event e = false) pre.

(** Every string of a job definition that ends up in the YAML document. *)
Definition yaml_scalars (j : JobDefinition) : list scalar :=
  option_list (name j)
  ++ (r ← dependencies j; [path r; rerun r])
  ++ option_list (custom_revision j).

(** The reference the loop body builds for the pair [dt], given the values
    found under [editor["version"]] and [editor["rerun_strategy"]]. *)
Definition expected_reference `{Namer} (project_name editor_version rerun_strategy : scalar)
    (dt : DependencyEntry * scalar) : DependencyReference :=
  {| path :=
       Str (text (project_filepath_specific project_name (platform_name dt.1) (api_name dt.1))
            +:+ "#" +:+
            text (project_job_id_test project_name (platform_name dt.1) (api_name dt.1)
                    dt.2 editor_version));
     rerun := rerun_strategy |}.

(** [ref] is what the loop body emits for [dt] under [editor]. *)
Definition emitted `{Namer} (project_name : scalar) (editor : gmap string scalar)
    (dt : DependencyEntry * scalar) (ref : DependencyReference) : Prop :=
  ∃ v r, editor !! "version" = Some v ∧ editor !! "rerun_strategy" = Some r ∧
         ref = expected_reference project_name v r dt.

(** The events of one pass through the loop body. *)
Definition body_events (project_name editor_version : scalar)
    (dt : DependencyEntry * scalar) : list event :=
  [ Call_project_filepath_specific project_name (platform_name dt.1) (api_name dt.1);
    Getitem_editor "version";
    Call_project_job_id_test project_name (platform_name dt.1) (api_name dt.1)
      dt.2 editor_version;
    Getitem_editor "rerun_strategy" ].

(** The events of the part of [get_job_definition] that constructs the job. *)
Definition construct_events (project_name editor_version : scalar)
    (refs : list DependencyReference) : list event :=
  [ YMLJob_init;
    Getitem_editor "version";
    YMLJob_set_name (Str ("All " +:+ text project_name +:+ " CI - " +:+ text editor_version));
    YMLJob_add_dependencies refs;
    Getitem_editor "version";
    YMLJob_add_var_custom_revision editor_version ].

(** ** A concrete run

    The scenario of the description: project [MyGame], one entry for
    [Win]/[d3d11] with two test platforms.  Any naming scheme would do; this
    one joins its arguments with separators. *)

Module Example.

Definition namer : Namer := {|
  project_job_id_all p v := fstring [Lit "All_"; Fmt p; Lit "_"; Fmt v];
  project_filepath_specific p pl a :=
    fstring [Lit ".yamato/"; Fmt p; Lit "-"; Fmt pl; Lit "-"; Fmt a; Lit ".yml"];
  project_job_id_test p pl a t v :=
    fstring [Fmt p; Lit "_"; Fmt pl; Lit "_"; Fmt a; Lit "_"; Fmt t; Lit "_"; Fmt v]
|}.

Definition editor : gmap string scalar :=
  {[ "version" := Str "2021.3"; "rerun_strategy" := Str "on-new-revision" ]}.

(** The same editor with its version read from a double-quoted YAML scalar. *)
Definition editor_quoted : gmap string scalar :=
  {[ "version" := Dss "2021.3"; "rerun_strategy" := Str "on-new-revision" ]}.

Definition editor_without_version : gmap string scalar :=
  {[ "rerun_strategy" := Str "on-new-revision" ]}.

Definition editor_without_rerun_strategy : gmap string scalar :=
  {[ "version" := Str "2021.3" ]}.

Definition dependencies_in_all : list DependencyEntry :=
  [ {| platform_name := Str "Win"; api_name := Str "d3d11";
       test_platform_names := [Str "standalone"; Str "editmode"] |} ].

End Example.

(** ** Further vocabulary: failures and skipped entries *)


(** The entries for which the inner loop runs at least once. *)
Definition has_test_platform_names (d : DependencyEntry) : bool :=
  match test_platform_names d with
  | [] => false
  | _ :: _ => true
  end.


Module Example_more.

(** The editor of the scenario with the other keys such a dictionary has. *)
Definition editor_with_more_keys : gmap string scalar :=
  {[ "version" := Str "2021.3"; "rerun_strategy" := Str "on-new-revision";
     "track" := Str "trunk"; "name" := Str "2021.3" ]}.

(** Entries of which the first and the last have no test platform. *)
Definition dependencies_with_gaps : list DependencyEntry :=
  [ {| platform_name := Str "Linux"; api_name := Str "Vulkan";
       test_platform_names := [] |};
    {| platform_name := Str "Win"; api_name := Str "d3d11";
       test_platform_names := [Str "standalone"; Str "editmode"] |};
    {| platform_name := Str "OSX"; api_name := Str "Metal";
       test_platform_names := [] |} ].

Definition more_dependencies : list DependencyEntry :=
  [ {| platform_name := Str "OSX"; api_name := Str "Metal";
       test_platform_names := [Str "playmode"] |} ].

End Example_more.

(** ** Entries as the dictionaries they are

    Above, an entry carries its three keys.  Here each key may be absent, as
    in a Python dictionary, and reading an absent key raises [KeyError].  The
    two methods are the same line by line, with the reads [d["..."]] written
    out where the source has them: [d["test_platform_names"]] once, when the
    inner loop starts, and [d["platform_name"]] and [d["api_name"]] among the
    arguments of each naming call, from left to right. *)

Module Dict.

Record entry : Type := {
  platform_name : option scalar;
  api_name : option scalar;
  test_platform_names : option (list scalar)
}.

(** [d[key]], given what [d] holds under [key]. *)
Definition entry_getitem {A : Type} (field : option A) (key : string) : M A :=
  match field with
  | Some v => mret v
  | None => raise (KeyError key)
  end.

Section WithNamer.
Context `{Namer}.

Definition append_dependency (project_name : scalar) (editor : gmap string scalar)
    (d : entry) (dependencies : list DependencyReference)
    (test_platform_name : scalar) : M (list DependencyReference) :=
  d_platform_name ← entry_getitem (platform_name d) "platform_name";
  d_api_name ← entry_getitem (api_name d) "api_name";
  log (Call_project_filepath_specific project_name d_platform_name d_api_name);;
  let file_name := project_filepath_specific project_name d_platform_name d_api_name in
  d_platform_name ← entry_getitem (platform_name d) "platform_name";
  d_api_name ← entry_getitem (api_name d) "api_name";
  editor_version ← getitem editor "version";
  log (Call_project_job_id_test project_name d_platform_name d_api_name
         test_platform_name editor_version);;
  let job_id := project_job_id_test project_name d_platform_name d_api_name
                  test_platform_name editor_version in
  rerun_strategy ← getitem editor "rerun_strategy";
  mret (dependencies ++
          [ {| path := fstring [Fmt file_name; Lit "#"; Fmt job_id];
               rerun := rerun_strategy |} ]).

Definition get_job_definition (project_name : scalar) (editor : gmap string scalar)
    (dependencies_in_all : list entry) : M YMLJob.t :=
  (* define dependencies *)
  dependencies ←
    for_in dependencies_in_all
      (λ dependencies d,
         d_test_platform_names ←
           entry_getitem (test_platform_names d) "test_platform_names";
         for_in d_test_platform_names
           (append_dependency project_name editor d) dependencies)
      [];
  (* construct job *)
  job ← YMLJob.__init__;
  editor_version ← getitem editor "version";
  job ← YMLJob.set_name job
          (fstring [Lit "All "; Fmt project_name; Lit " CI - "; Fmt editor_version]);
  job ← YMLJob.add_dependencies job dependencies;
  editor_version ← getitem editor "version";
  job ← YMLJob.add_var_custom_revision job editor_version;
  mret job.

Definition __init__ (project_name : scalar) (editor : gmap string scalar)
    (dependencies_in_all : list entry) : M Project_AllJob.t :=
  editor_version ← getitem editor "version";
  log (Call_project_job_id_all project_name editor_version);;
  let job_id := project_job_id_all project_name editor_version in
  job ← get_job_definition project_name editor dependencies_in_all;
  mret {| Project_AllJob.project_name := project_name;
          Project_AllJob.job_id := job_id;
          Project_AllJob.yml := YMLJob.yml job |}.

End WithNamer.

(** The list under ["test_platform_names"], empty when the key is absent. *)
Definition names (d : entry) : list scalar := default [] (test_platform_names d).

Definition count_test_platform_names (dependencies_in_all : list entry) : nat :=
  sum_list_with (λ d, length (names d)) dependencies_in_all.

(** The keys the loops read of [d] are there: ["test_platform_names"]
    always, ["platform_name"] and ["api_name"] when the list is not empty. *)
Definition readable (d : entry) : Prop :=
  is_Some (test_platform_names d) ∧
  (names d ≠ [] → is_Some (platform_name d) ∧ is_Some (api_name d)).

(** [key] is one of the five keys the methods read and is absent where they
    read it: in [editor], or in some entry. *)
Definition missing (editor : gmap string scalar) (dependencies_in_all : list entry)
    (key : string) : Prop :=
  (key = "version" ∧ editor !! "version" = None) ∨
  (key = "rerun_strategy" ∧ editor !! "rerun_strategy" = None) ∨
  (key = "test_platform_names" ∧
   ∃ d, d ∈ dependencies_in_all ∧ test_platform_names d = None) ∨
  (key = "platform_name" ∧ ∃ d, d ∈ dependencies_in_all ∧ platform_name d = None) ∨
  (key = "api_name" ∧ ∃ d, d ∈ dependencies_in_all ∧ api_name d = None).

End Dict.

(** An entry that carries its three keys, as a dictionary. *)
Definition dict_of_entry (d : DependencyEntry) : Dict.entry :=
  {| Dict.platform_name := Some (platform_name d);
     Dict.api_name := Some (api_name d);
     Dict.test_platform_names := Some (test_platform_names d) |}.

(** A readable dictionary as an entry that carries its three keys; a name
    that is absent is never read and is filled with the empty string. *)
Definition entry_of_dict (d : Dict.entry) : DependencyEntry :=
  {| platform_name := default (Str EmptyString) (Dict.platform_name d);
     api_name := default (Str EmptyString) (Dict.api_name d);
     test_platform_names := Dict.names d |}.

(** Every exception of [m] satisfies [P]. *)
Definition raises_in {A : Type} (P : exn → Prop) (m : M A) : Prop :=
  ∀ e, m.1 = Raise e → P e.

Module Example_dict.

(** An entry without test platforms and without the two names, then the
    entry of the scenario. *)
Definition dependencies_in_all : list Dict.entry :=
  [ {| Dict.platform_name := None; Dict.api_name := None;
       Dict.test_platform_names := Some [] |};
    {| Dict.platform_name := Some (Str "Win"); Dict.api_name := Some (Str "d3d11");
       Dict.test_platform_names := Some [Str "standalone"; Str "editmode"] |} ].

(** The entry of the scenario without its ["platform_name"]. *)
Definition dependencies_without_platform_name : list Dict.entry :=
  [ {| Dict.platform_name := None; Dict.api_name := Some (Str "d3d11");
       Dict.test_platform_names := Some [Str "standalone"; Str "editmode"] |} ].

(** An entry without ["test_platform_names"]. *)
Definition dependencies_without_test_platform_names : list Dict.entry :=
  [ {| Dict.platform_name := Some (Str "Win"); Dict.api_name := Some (Str "d3d11");
       Dict.test_platform_names := None |} ].

End Example_dict.

(** ** Facts about the monad *)

Lemma bind_unfold {A B : Type} (f : A → M B) (a : A) (t : list event) :
  ((Ok a, t) : M A) ≫= f = (fst (f a), t ++ snd (f a)).
Proof. unfold mbind, M_bind. by destruct (f a). Qed.

Lemma ret_bind {A B : Type} (f : A → M B) (a : A) : mret a ≫= f = f a.
Proof. unfold mbind, M_bind, mret, M_ret. by destruct (f a). Qed.

Lemma ret_Ok_inv {A : Type} (a b : A) (tr : list event) :
  (mret a : M A) = (Ok b, tr) → b = a ∧ tr = [].
Proof. intros E. unfold mret, M_ret in E. by simplify_eq. Qed.

Lemma bind_Ok_inv {A B : Type} (m : M A) (f : A → M B) (b : B) (tr : list event) :
  m ≫= f = (Ok b, tr) →
  ∃ a t1 t2, m = (Ok a, t1) ∧ f a = (Ok b, t2) ∧ tr = t1 ++ t2.
Proof.
  destruct m as [[a|e] t1]; [|done].
  rewrite bind_unfold. destruct (f a) as [r t2] eqn:Ef; simpl.
  intros E. simplify_eq. by exists a, t1, t2.
Qed.

Lemma getitem_Some (editor : gmap string scalar) (key : string) (v : scalar) :
  editor !! key = Some v → getitem editor key = (Ok v, [Getitem_editor key]).
Proof. intros E. unfold getitem. by rewrite E. Qed.

Lemma getitem_None (editor : gmap string scalar) (key : string) :
  editor !! key = None → getitem editor key = (Raise (KeyError key), [Getitem_editor key]).
Proof. intros E. unfold getitem. by rewrite E. Qed.

(** ** f-strings *)

Lemma append_empty_r (s : string) : s +:+ EmptyString = s.
Proof. induction s as [|c s IH]; [done|]. exact (f_equal (String c) IH). Qed.

Lemma fstring_path (file_name job_id : scalar) :
  fstring [Fmt file_name; Lit "#"; Fmt job_id]
  = Str (text file_name +:+ "#" +:+ text job_id).
Proof. unfold fstring. cbn [foldr piece_text]. by rewrite append_empty_r. Qed.

Lemma fstring_name (project_name editor_version : scalar) :
  fstring [Lit "All "; Fmt project_name; Lit " CI - "; Fmt editor_version]
  = Str ("All " +:+ text project_name +:+ " CI - " +:+ text editor_version).
Proof. unfold fstring. cbn [foldr piece_text]. by rewrite append_empty_r. Qed.

(** ** The loops *)

Section Loops.
Context `{Namer} (project_name : scalar) (editor : gmap string scalar).

Lemma append_dependency_Ok (v r : scalar) (d : DependencyEntry)
    (acc : list DependencyReference) (t : scalar) :
  editor !! "version" = Some v →
  editor !! "rerun_strategy" = Some r →
  append_dependency project_name editor d acc t
  = (Ok (acc ++ [expected_reference project_name v r (d, t)]),
     body_events project_name v (d, t)).
Proof.
  intros Ev Er. unfold append_dependency.
  rewrite (getitem_Some _ _ _ Ev), (getitem_Some _ _ _ Er).
  unfold expected_reference. rewrite <- fstring_path. reflexivity.
Qed.

Lemma append_dependency_Ok_inv (d : DependencyEntry) (acc acc' : list DependencyReference)
    (t : scalar) (tr : list event) :
  append_dependency project_name editor d acc t = (Ok acc', tr) →
  ∃ v r, editor !! "version" = Some v ∧ editor !! "rerun_strategy" = Some r ∧
         acc' = acc ++ [expected_reference project_name v r (d, t)] ∧
         tr = body_events project_name v (d, t).
Proof.
  destruct (editor !! "version") as [v|] eqn:Ev;
    destruct (editor !! "rerun_strategy") as [r|] eqn:Er.
  - rewrite (append_dependency_Ok v r) by done.
    intros E. simplify_eq. by exists v, r.
  - unfold append_dependency.
    rewrite (getitem_Some _ _ _ Ev), (getitem_None _ _ Er). done.
  - unfold append_dependency. rewrite (getitem_None _ _ Ev). done.
  - unfold append_dependency. rewrite (getitem_None _ _ Ev). done.
Qed.

Lemma inner_loop_Ok (v r : scalar) (d : DependencyEntry) (tpns : list scalar)
    (acc : list DependencyReference) :
  editor !! "version" = Some v →
  editor !! "rerun_strategy" = Some r →
  for_in tpns (append_dependency project_name editor d) acc
  = (Ok (acc ++ (expected_reference project_name v r <$> (pair d <$> tpns))),
     (pair d <$> tpns) ≫= body_events project_name v).
Proof.
  intros Ev Er. revert acc.
  induction tpns as [|t ts IH]; intros acc.
  - cbn. by rewrite app_nil_r.
  - cbn [for_in]. rewrite (append_dependency_Ok v r) by done.
    rewrite bind_unfold, IH. cbn [fst snd].
    rewrite !fmap_cons, bind_cons. by rewrite <- app_assoc.
Qed.

Lemma loops_Ok (v r : scalar) (dependencies_in_all : list DependencyEntry)
    (acc : list DependencyReference) :
  editor !! "version" = Some v →
  editor !! "rerun_strategy" = Some r →
  for_in dependencies_in_all
    (λ dependencies d,
       for_in (test_platform_names d)
         (append_dependency project_name editor d) dependencies) acc
  = (Ok (acc ++ (expected_reference project_name v r <$> iteration_order dependencies_in_all)),
     iteration_order dependencies_in_all ≫= body_events project_name v).
Proof.
  intros Ev Er. revert acc.
  induction dependencies_in_all as [|d ds IH]; intros acc.
  - cbn. by rewrite app_nil_r.
  - cbn [for_in]. rewrite (inner_loop_Ok v r) by done.
    rewrite bind_unfold, IH. cbn [fst snd].
    unfold iteration_order. rewrite bind_cons, fmap_app, bind_app.
    by rewrite <- app_assoc.
Qed.

Lemma inner_loop_Ok_inv (d : DependencyEntry) (tpns : list scalar)
    (acc acc' : list DependencyReference) (tr : list event) :
  for_in tpns (append_dependency project_name editor d) acc = (Ok acc', tr) →
  ∃ refs, acc' = acc ++ refs ∧
          Forall2 (emitted project_name editor) (pair d <$> tpns) refs.
Proof.
  revert acc tr. induction tpns as [|t ts IH]; intros acc tr E.
  - apply ret_Ok_inv in E as [-> _]. exists [].
    split; [by rewrite app_nil_r|constructor].
  - cbn [for_in] in E.
    apply bind_Ok_inv in E as (acc1 & t1 & t2 & E1 & E2 & ->).
    apply append_dependency_Ok_inv in E1 as (v & r & Ev & Er & -> & _).
    apply IH in E2 as (refs & -> & HF).
    exists (expected_reference project_name v r (d, t) :: refs).
    split; [by rewrite <- app_assoc|].
    rewrite fmap_cons. constructor; [by exists v, r|done].
Qed.

Lemma loops_Ok_inv (dependencies_in_all : list DependencyEntry)
    (acc acc' : list DependencyReference) (tr : list event) :
  for_in dependencies_in_all
    (λ dependencies d,
       for_in (test_platform_names d)
         (append_dependency project_name editor d) dependencies) acc
  = (Ok acc', tr) →
  ∃ refs, acc' = acc ++ refs ∧
          Forall2 (emitted project_name editor) (iteration_order dependencies_in_all) refs.
Proof.
  revert acc tr. induction dependencies_in_all as [|d ds IH]; intros acc tr E.
  - apply ret_Ok_inv in E as [-> _]. exists [].
    split; [by rewrite app_nil_r|constructor].
  - cbn [for_in] in E.
    apply bind_Ok_inv in E as (acc1 & t1 & t2 & E1 & E2 & ->).
    apply inner_loop_Ok_inv in E1 as (refs1 & -> & HF1).
    apply IH in E2 as (refs2 & -> & HF2).
    exists (refs1 ++ refs2). split; [by rewrite <- app_assoc|].
    unfold iteration_order. rewrite bind_cons. by apply Forall2_app.
Qed.

(** With no test platform at all the loops do nothing, whatever [editor]. *)
Lemma loops_nothing (dependencies_in_all : list DependencyEntry)
    (acc : list DependencyReference) :
  count_test_platform_names dependencies_in_all = 0 →
  for_in dependencies_in_all
    (λ dependencies d,
       for_in (test_platform_names d)
         (append_dependency project_name editor d) dependencies) acc
  = (Ok acc, []).
Proof.
  unfold count_test_platform_names.
  induction dependencies_in_all as [|d ds IH]; [done|].
  cbn [sum_list_with for_in]. intros Hz.
  destruct (test_platform_names d) as [|t ts]; [|done].
  cbn [for_in]. rewrite ret_bind. apply IH. exact Hz.
Qed.

(** No event of the loops involves the builder, whatever their outcome. *)
Lemma bind_trace {A B : Type} (P : event → Prop) (m : M A) (f : A → M B) :
  Forall P m.2 → (∀ a, Forall P (f a).2) → Forall P (m ≫= f).2.
Proof.
  destruct m as [[a|e] t]; [|done].
  intros Hm Hf. rewrite bind_unfold. apply Forall_app. split; [done|apply Hf].
Qed.

Lemma for_in_trace {A S : Type} (P : event → Prop) (xs : list A)
    (body : S → A → M S) (s : S) :
  (∀ s x, Forall P (body s x).2) → Forall P (for_in xs body s).2.
Proof.
  intros Hbody. revert s. induction xs as [|x xs IH]; intros s.
  - constructor.
  - cbn [for_in]. apply bind_trace; [apply Hbody|apply IH].
Qed.

Lemma getitem_trace (P : event → Prop) (key : string) :
  P (Getitem_editor key) → Forall P (getitem editor key).2.
Proof.
  intros HP. unfold getitem. destruct (editor !! key); cbn; by constructor.
Qed.

Lemma append_dependency_trace (d : DependencyEntry) (acc : list DependencyReference)
    (t : scalar) :
  Forall (λ e, is_YMLJob_event e = false) (append_dependency project_name editor d acc t).2.
Proof.
  unfold append_dependency.
  apply bind_trace; [by repeat constructor|intros _].
  apply bind_trace; [by apply getitem_trace|intros v].
  apply bind_trace; [by repeat constructor|intros _].
  apply bind_trace; [by apply getitem_trace|intros r].
  constructor.
Qed.

Lemma loops_trace (dependencies_in_all : list DependencyEntry)
    (acc : list DependencyReference) :
  Forall (λ e, is_YMLJob_event e = false)
    (for_in dependencies_in_all
       (λ dependencies d,
          for_in (test_platform_names d)
            (append_dependency project_name editor d) dependencies) acc).2.
Proof.
  apply for_in_trace. intros s d.
  apply for_in_trace. intros s' t. apply append_dependency_trace.
Qed.

End Loops.

(** ** The two methods *)

Section Methods.
Context `{Namer} (project_name : scalar) (editor : gmap string scalar)
  (dependencies_in_all : list DependencyEntry).

Lemma get_job_definition_Ok (v r : scalar) :
  editor !! "version" = Some v →
  editor !! "rerun_strategy" = Some r →
  get_job_definition project_name editor dependencies_in_all
  = (Ok {| YMLJob.yml :=
             {| name := Some (Str ("All " +:+ text project_name +:+ " CI - " +:+ text v));
                dependencies :=
                  expected_reference project_name v r <$> iteration_order dependencies_in_all;
                custom_revision := Some v |} |},
     (iteration_order dependencies_in_all ≫= body_events project_name v)
     ++ construct_events project_name v
          (expected_reference project_name v r <$> iteration_order dependencies_in_all)).
Proof.
  intros Ev Er. unfold get_job_definition.
  rewrite (loops_Ok _ _ v r) by done.
  rewrite (getitem_Some _ _ _ Ev). cbn -[fstring].
  by rewrite fstring_name.
Qed.

Lemma get_job_definition_Ok_inv (job : YMLJob.t) (tr : list event) :
  get_job_definition project_name editor dependencies_in_all = (Ok job, tr) →
  ∃ v refs pre,
    editor !! "version" = Some v ∧
    Forall2 (emitted project_name editor) (iteration_order dependencies_in_all) refs ∧
    YMLJob.yml job
    = {| name := Some (Str ("All " +:+ text project_name +:+ " CI - " +:+ text v));
         dependencies := refs;
         custom_revision := Some v |} ∧
    tr = pre ++ construct_events project_name v refs ∧
    Forall (λ e, is_YMLJob_event e = false) pre.
Proof.
  unfold get_job_definition. intros E.
  apply bind_Ok_inv in E as (refs0 & pre & t2 & E1 & E2 & ->).
  pose proof (loops_trace project_name editor dependencies_in_all []) as Hpre.
  rewrite E1 in Hpre.
  apply loops_Ok_inv in E1 as (refs & -> & HF).
  destruct (editor !! "version") as [v|] eqn:Ev.
  - rewrite (getitem_Some _ _ _ Ev) in E2. cbn -[fstring] in E2.
    rewrite fstring_name in E2. simplify_eq. by exists v, refs, pre.
  - rewrite (getitem_None _ _ Ev) in E2. cbn in E2. done.
Qed.

Lemma init_Ok (v r : scalar) :
  editor !! "version" = Some v →
  editor !! "rerun_strategy" = Some r →
  ∃ tr,
    __init__ project_name editor dependencies_in_all
    = (Ok {| Project_AllJob.project_name := project_name;
             job_id := project_job_id_all project_name v;
             yml :=
               {| name := Some (Str ("All " +:+ text project_name +:+ " CI - " +:+ text v));
                  dependencies :=
                    expected_reference project_name v r
                      <$> iteration_order dependencies_in_all;
                  custom_revision := Some v |} |}, tr).
Proof.
  intros Ev Er. unfold __init__.
  rewrite (getitem_Some _ _ _ Ev), (get_job_definition_Ok v r) by done.
  eexists. reflexivity.
Qed.

Lemma init_Ok_inv (self : Project_AllJob.t) (tr : list event) :
  __init__ project_name editor dependencies_in_all = (Ok self, tr) →
  ∃ v job tr',
    editor !! "version" = Some v ∧
    get_job_definition project_name editor dependencies_in_all = (Ok job, tr') ∧
    self = {| Project_AllJob.project_name := project_name;
              job_id := project_job_id_all project_name v;
              yml := YMLJob.yml job |} ∧
    tr = [Getitem_editor "version"; Call_project_job_id_all project_name v] ++ tr'.
Proof.
  unfold __init__. intros E.
  destruct (editor !! "version") as [v|] eqn:Ev.
  - rewrite (getitem_Some _ _ _ Ev) in E.
    destruct (get_job_definition project_name editor dependencies_in_all)
      as [[job|e] tr'] eqn:Ej.
    + cbn in E. simplify_eq. exists v, job, tr'. by rewrite app_nil_r.
    + cbn in E. done.
  - rewrite (getitem_None _ _ Ev) in E. done.
Qed.

End Methods.

(** ** The order of iteration *)

Lemma length_iteration_order (dependencies_in_all : list DependencyEntry) :
  length (iteration_order dependencies_in_all)
  = count_test_platform_names dependencies_in_all.
Proof.
  unfold iteration_order, count_test_platform_names.
  induction dependencies_in_all as [|d ds IH]; [done|].
  rewrite bind_cons, length_app, length_fmap, IH. done.
Qed.

Lemma iteration_order_lookup (dependencies_in_all : list DependencyEntry)
    (i j : nat) (d : DependencyEntry) (t : scalar) :
  dependencies_in_all !! i = Some d →
  test_platform_names d !! j = Some t →
  iteration_order dependencies_in_all !! (offset dependencies_in_all i + j) = Some (d, t).
Proof.
  revert i. induction dependencies_in_all as [|d0 ds IH]; intros i Hi Hj; [done|].
  unfold iteration_order. rewrite bind_cons.
  destruct i as [|i]; simplify_eq/=.
  - rewrite lookup_app_l by (rewrite length_fmap; by eapply lookup_lt_Some).
    by rewrite list_lookup_fmap, Hj.
  - unfold offset, count_test_platform_names. cbn [take sum_list_with].
    rewrite lookup_app_r by (rewrite length_fmap; lia).
    rewrite length_fmap.
    replace (length (test_platform_names d0)
             + sum_list_with (λ e, length (test_platform_names e)) (take i ds) + j
             - length (test_platform_names d0))
      with (offset ds i + j) by (unfold offset, count_test_platform_names; lia).
    by apply IH.
Qed.

(** ** The properties of the job *)

Section Claims.
Context `{Namer} (project_name : scalar) (editor : gmap string scalar)
  (dependencies_in_all : list DependencyEntry).

(** A job is returned as soon as [editor] has both keys. *)
Lemma get_job_definition_returns :
  is_Some (editor !! "version") →
  is_Some (editor !! "rerun_strategy") →
  ∃ job tr, get_job_definition project_name editor dependencies_in_all = (Ok job, tr).
Proof.
  intros [v Ev] [r Er]. eexists _, _. by apply (get_job_definition_Ok _ _ _ v r).
Qed.

(** Exactly when a job is returned: the version is always needed, the rerun
    strategy only if the loop body runs at least once. *)
Lemma get_job_definition_returns_iff :
  (∃ job tr, get_job_definition project_name editor dependencies_in_all = (Ok job, tr))
  ↔ is_Some (editor !! "version") ∧
    (is_Some (editor !! "rerun_strategy") ∨
     count_test_platform_names dependencies_in_all = 0).
Proof.
  split.
  - intros (job & tr & E).
    apply get_job_definition_Ok_inv in E as (v & refs & pre & Ev & HF & _).
    split; [by exists v|].
    rewrite <- length_iteration_order.
    destruct HF as [|dt ref dts refs' (v' & r & _ & Er & _) _]; [by right|].
    left. by exists r.
  - intros [[v Ev] [Hr|Hz]]; [by apply get_job_definition_returns|].
    unfold get_job_definition. rewrite loops_nothing by done.
    rewrite (getitem_Some _ _ _ Ev). cbn. by eexists _, _.
Qed.

(** C1: whenever [get_job_definition] returns a job, the list of dependency
    references it handed to the builder, which is the list of the job, has
    exactly [sum(len(e.test_platform_names) for e in dependency_entries)]
    elements; and it does return a job when [editor] has a version and a rerun
    strategy. *)
Theorem dependency_count :
  (∀ job tr,
     get_job_definition project_name editor dependencies_in_all = (Ok job, tr) →
     YMLJob_add_dependencies (dependencies (YMLJob.yml job)) ∈ tr ∧
     length (dependencies (YMLJob.yml job))
     = count_test_platform_names dependencies_in_all)
  ∧ (is_Some (editor !! "version") →
     is_Some (editor !! "rerun_strategy") →
     ∃ job tr, get_job_definition project_name editor dependencies_in_all = (Ok job, tr)).
Proof.
  split; [|apply get_job_definition_returns].
  intros job tr E.
  apply get_job_definition_Ok_inv in E as (v & refs & pre & _ & HF & -> & -> & _).
  cbn [dependencies]. split.
  - unfold construct_events. set_solver.
  - apply Forall2_length in HF. by rewrite <- HF, length_iteration_order.
Qed.

(** C2: whenever [get_job_definition] returns a job, its dependency
    references are in the order of iteration: the reference for the name
    number [j] of the entry number [i] stands at position
    [offset i + j], after the references of all earlier entries and of the
    earlier names of the same entry, and there are no other references; and a
    job is returned when [editor] has a version and a rerun strategy. *)
Theorem dependency_order :
  (∀ job tr,
     get_job_definition project_name editor dependencies_in_all = (Ok job, tr) →
     length (dependencies (YMLJob.yml job))
     = count_test_platform_names dependencies_in_all ∧
     ∀ i j d t,
       dependencies_in_all !! i = Some d →
       test_platform_names d !! j = Some t →
       ∃ ref,
         dependencies (YMLJob.yml job) !! (offset dependencies_in_all i + j) = Some ref ∧
         emitted project_name editor (d, t) ref)
  ∧ (is_Some (editor !! "version") →
     is_Some (editor !! "rerun_strategy") →
     ∃ job tr, get_job_definition project_name editor dependencies_in_all = (Ok job, tr)).
Proof.
  split; [|apply get_job_definition_returns].
  intros job tr E.
  apply get_job_definition_Ok_inv in E as (v & refs & pre & _ & HF & -> & _ & _).
  cbn [dependencies]. split.
  - apply Forall2_length in HF. by rewrite <- HF, length_iteration_order.
  - intros i j d t Hi Hj.
    pose proof (iteration_order_lookup _ _ _ _ _ Hi Hj) as Hdt.
    destruct (Forall2_lookup_l _ _ _ _ _ HF Hdt) as (ref & Href & Hem).
    by exists ref.
Qed.

(** C3: with [v] under [editor["version"]] and [r] under
    [editor["rerun_strategy"]], the job is returned and its dependency
    references, which are those handed to the builder, are, for every entry
    [d] and every name [t] of [d], the record whose path is
    [project_filepath_specific(project_name, d.platform_name, d.api_name)],
    ["#"] and [project_job_id_test(project_name, d.platform_name, d.api_name,
    t, v)] concatenated, and whose rerun is [r]. *)
Theorem dependency_content (v r : scalar) :
  editor !! "version" = Some v →
  editor !! "rerun_strategy" = Some r →
  ∃ job tr,
    get_job_definition project_name editor dependencies_in_all = (Ok job, tr) ∧
    YMLJob_add_dependencies (dependencies (YMLJob.yml job)) ∈ tr ∧
    dependencies (YMLJob.yml job)
    = (d ← dependencies_in_all;
       t ← test_platform_names d;
       [ {| path :=
              Str (text (project_filepath_specific project_name
                           (platform_name d) (api_name d))
                   +:+ "#" +:+
                   text (project_job_id_test project_name
                           (platform_name d) (api_name d) t v));
            rerun := r |} ]).
Proof.
  intros Ev Er. eexists _, _.
  split; [by apply (get_job_definition_Ok _ _ _ v r)|].
  cbn [YMLJob.yml dependencies]. split.
  - unfold construct_events. set_solver.
  - unfold iteration_order.
    induction dependencies_in_all as [|d ds IH]; [done|].
    rewrite !bind_cons, fmap_app, IH. f_equal.
    induction (test_platform_names d) as [|t ts IHt]; [done|].
    rewrite !fmap_cons, bind_cons, IHt. done.
Qed.

(** C4: whenever [get_job_definition] returns a job, the name it passed to
    [set_name], which is the name of the job, is the string
    [All {project_name} CI - {editor["version"]}]; and a job is returned when
    [editor] has a version and a rerun strategy. *)
Theorem job_name :
  (∀ job tr,
     get_job_definition project_name editor dependencies_in_all = (Ok job, tr) →
     ∃ v, editor !! "version" = Some v ∧
          YMLJob_set_name (Str ("All " +:+ text project_name +:+ " CI - " +:+ text v)) ∈ tr ∧
          name (YMLJob.yml job)
          = Some (Str ("All " +:+ text project_name +:+ " CI - " +:+ text v)))
  ∧ (is_Some (editor !! "version") →
     is_Some (editor !! "rerun_strategy") →
     ∃ job tr, get_job_definition project_name editor dependencies_in_all = (Ok job, tr)).
Proof.
  split; [|apply get_job_definition_returns].
  intros job tr E.
  apply get_job_definition_Ok_inv in E as (v & refs & pre & Ev & _ & -> & -> & _).
  exists v. split; [done|]. split; [|done].
  unfold construct_events. set_solver.
Qed.

(** C5: whenever [get_job_definition] returns a job, the value it passed to
    [add_var_custom_revision], which is the custom revision of the job, is
    [editor["version"]]; and a job is returned when [editor] has a version and
    a rerun strategy. *)
Theorem job_custom_revision :
  (∀ job tr,
     get_job_definition project_name editor dependencies_in_all = (Ok job, tr) →
     ∃ v, editor !! "version" = Some v ∧
          YMLJob_add_var_custom_revision v ∈ tr ∧
          custom_revision (YMLJob.yml job) = Some v)
  ∧ (is_Some (editor !! "version") →
     is_Some (editor !! "rerun_strategy") →
     ∃ job tr, get_job_definition project_name editor dependencies_in_all = (Ok job, tr)).
Proof.
  split; [|apply get_job_definition_returns].
  intros job tr E.
  apply get_job_definition_Ok_inv in E as (v & refs & pre & Ev & _ & -> & -> & _).
  exists v. split; [done|]. split; [|done].
  unfold construct_events. set_solver.
Qed.

End Claims.

(** ** Errors and the order of the calls *)

Section Errors.
Context `{Namer} (project_name : scalar) (editor : gmap string scalar).

(** C6: when [editor] has no key ["version"], constructing the object raises
    [KeyError] for that key, whatever the dependency entries; the only event
    before the exception is the failed read of [editor], so no naming function
    has been called and no entry has been visited. *)
Theorem missing_version (dependencies_in_all : list DependencyEntry) :
  editor !! "version" = None →
  __init__ project_name editor dependencies_in_all
  = (Raise (KeyError "version"), [Getitem_editor "version"]).
Proof.
  intros Ev. unfold __init__. by rewrite (getitem_None _ _ Ev).
Qed.

(** C7: when [editor] has a version and a rerun strategy, building the job
    for an empty list of entries raises nothing and gives a job without
    dependencies, through [get_job_definition] and through the constructor
    alike. *)
Theorem empty_dependencies :
  is_Some (editor !! "version") →
  is_Some (editor !! "rerun_strategy") →
  (∃ job tr,
     get_job_definition project_name editor [] = (Ok job, tr) ∧
     dependencies (YMLJob.yml job) = []) ∧
  (∃ self tr,
     __init__ project_name editor [] = (Ok self, tr) ∧
     dependencies (yml self) = []).
Proof.
  intros [v Ev] [r Er]. split.
  - eexists _, _. split; [by apply (get_job_definition_Ok _ _ _ v r)|done].
  - destruct (init_Ok project_name editor [] v r Ev Er) as [tr E].
    eexists _, _. split; [exact E|done].
Qed.

(** C9: whenever the job is built, by [get_job_definition] or by the
    constructor, the builder is created after the loops and then receives
    [set_name], [add_dependencies] and [add_var_custom_revision] in this
    order and nothing else. *)
Theorem builder_call_order (dependencies_in_all : list DependencyEntry) :
  (∀ job tr,
     get_job_definition project_name editor dependencies_in_all = (Ok job, tr) →
     calls_in_fixed_order tr) ∧
  (∀ self tr,
     __init__ project_name editor dependencies_in_all = (Ok self, tr) →
     calls_in_fixed_order tr).
Proof.
  assert (∀ job tr,
    get_job_definition project_name editor dependencies_in_all = (Ok job, tr) →
    calls_in_fixed_order tr) as Hjob.
  { intros job tr E.
    apply get_job_definition_Ok_inv in E as (v & refs & pre & _ & _ & _ & -> & Hpre).
    by eexists pre, _, refs, v. }
  split; [done|].
  intros self tr E.
  apply init_Ok_inv in E as (v & job & tr' & _ & Ej & _ & ->).
  destruct (Hjob _ _ Ej) as (pre & n & refs & v' & -> & Hpre).
  exists (Getitem_editor "version" :: Call_project_job_id_all project_name v :: pre).
  exists n, refs, v'.
  split; [done|].
  by repeat constructor.
Qed.

(** C10: with a version but no rerun strategy in [editor], constructing the
    object for an empty list of entries raises nothing, never reads
    [editor["rerun_strategy"]] and gives a job without dependencies. *)
Theorem rerun_strategy_not_read :
  is_Some (editor !! "version") →
  editor !! "rerun_strategy" = None →
  ∃ self tr,
    __init__ project_name editor [] = (Ok self, tr) ∧
    (Getitem_editor "rerun_strategy" ∉ tr) ∧
    dependencies (yml self) = [].
Proof.
  intros [v Ev] _. unfold __init__, get_job_definition.
  rewrite (getitem_Some _ _ _ Ev). cbn.
  eexists _, _. split; [reflexivity|]. split; [|done].
  repeat (apply not_elem_of_cons; split; [done|]). apply not_elem_of_nil.
Qed.

End Errors.

(** ** Quoting *)

Section Quoting.
Context `{Namer} (project_name : scalar) (editor : gmap string scalar).

(** C8, as amended: the component double-quotes nothing itself.  Whenever
    [get_job_definition] returns a job, the name it passed to [set_name] and
    the paths of the references it passed to [add_dependencies] are plain
    strings; the rerun of every reference is the value under
    [editor["rerun_strategy"]] and the custom revision, passed to
    [add_var_custom_revision], is the value under [editor["version"]], both
    passed on unchanged; so a double-quoted string among the strings of the
    job is a value of [editor], under one of these two keys, as it came. *)
Theorem quoting_only_from_editor (dependencies_in_all : list DependencyEntry)
    (job : YMLJob.t) (tr : list event) :
  get_job_definition project_name editor dependencies_in_all = (Ok job, tr) →
  (∃ n, name (YMLJob.yml job) = Some n ∧ is_dss n = false ∧ YMLJob_set_name n ∈ tr) ∧
  YMLJob_add_dependencies (dependencies (YMLJob.yml job)) ∈ tr ∧
  (∀ ref, ref ∈ dependencies (YMLJob.yml job) →
          is_dss (path ref) = false ∧
          editor !! "rerun_strategy" = Some (rerun ref)) ∧
  (∃ v, editor !! "version" = Some v ∧
        custom_revision (YMLJob.yml job) = Some v ∧
        YMLJob_add_var_custom_revision v ∈ tr) ∧
  (∀ n, name (YMLJob.yml job) = Some n → is_dss n = false) ∧
  (∀ ref, ref ∈ dependencies (YMLJob.yml job) → is_dss (path ref) = false) ∧
  (∀ s, s ∈ yaml_scalars (YMLJob.yml job) → is_dss s = true →
        editor !! "version" = Some s ∨ editor !! "rerun_strategy" = Some s).
Proof.
  intros E.
  apply get_job_definition_Ok_inv in E as (v & refs & pre & Ev & HF & -> & -> & _).
  assert (∀ ref, ref ∈ refs →
            is_dss (path ref) = false ∧ editor !! "rerun_strategy" = Some (rerun ref))
    as Hrefs.
  { intros ref Href.
    apply list_elem_of_lookup in Href as [k Hk].
    destruct (Forall2_lookup_r _ _ _ _ _ HF Hk) as (dt & _ & v' & r' & _ & Er & ->).
    done. }
  cbn [name dependencies custom_revision]. unfold construct_events.
  split; [|split; [|split; [|split; [|split; [|split]]]]].
  - eexists. split; [done|]. split; [done|].
    apply elem_of_app; right.
    repeat (apply elem_of_cons; first [by left|right]).
  - apply elem_of_app; right.
    repeat (apply elem_of_cons; first [by left|right]).
  - exact Hrefs.
  - exists v. split; [done|]. split; [done|].
    apply elem_of_app; right.
    repeat (apply elem_of_cons; first [by left|right]).
  - intros n Hn. by simplify_eq.
  - intros ref Href. by apply Hrefs.
  - intros s Hs Hq. unfold yaml_scalars in Hs. cbn in Hs.
    apply elem_of_cons in Hs as [->|Hs]; [done|].
    apply elem_of_app in Hs as [Hs|Hs].
    + apply list_elem_of_bind in Hs as (ref & Hs & Href).
      destruct (Hrefs ref Href) as [Hp Hr].
      apply elem_of_cons in Hs as [->|Hs]; [congruence|].
      apply list_elem_of_singleton in Hs as ->. by right.
    + apply list_elem_of_singleton in Hs as ->. by left.
Qed.

End Quoting.

(** ** The properties on the concrete run *)

(** The whole run of the constructor on the scenario. *)
Example scenario_run :
  @__init__ Example.namer (Str "MyGame") Example.editor Example.dependencies_in_all
  = (Ok {| project_name := Str "MyGame";
           job_id := Str "All_MyGame_2021.3";
           yml :=
             {| name := Some (Str "All MyGame CI - 2021.3");
                dependencies :=
                  [ {| path :=
                         Str ".yamato/MyGame-Win-d3d11.yml#MyGame_Win_d3d11_standalone_2021.3";
                       rerun := Str "on-new-revision" |};
                    {| path :=
                         Str ".yamato/MyGame-Win-d3d11.yml#MyGame_Win_d3d11_editmode_2021.3";
                       rerun := Str "on-new-revision" |} ];
                custom_revision := Some (Str "2021.3") |} |},
     [ Getitem_editor "version";
       Call_project_job_id_all (Str "MyGame") (Str "2021.3");
       Call_project_filepath_specific (Str "MyGame") (Str "Win") (Str "d3d11");
       Getitem_editor "version";
       Call_project_job_id_test (Str "MyGame") (Str "Win") (Str "d3d11")
         (Str "standalone") (Str "2021.3");
       Getitem_editor "rerun_strategy";
       Call_project_filepath_specific (Str "MyGame") (Str "Win") (Str "d3d11");
       Getitem_editor "version";
       Call_project_job_id_test (Str "MyGame") (Str "Win") (Str "d3d11")
         (Str "editmode") (Str "2021.3");
       Getitem_editor "rerun_strategy";
       YMLJob_init;
       Getitem_editor "version";
       YMLJob_set_name (Str "All MyGame CI - 2021.3");
       YMLJob_add_dependencies
         [ {| path :=
                Str ".yamato/MyGame-Win-d3d11.yml#MyGame_Win_d3d11_standalone_2021.3";
              rerun := Str "on-new-revision" |};
           {| path :=
                Str ".yamato/MyGame-Win-d3d11.yml#MyGame_Win_d3d11_editmode_2021.3";
              rerun := Str "on-new-revision" |} ];
       Getitem_editor "version";
       YMLJob_add_var_custom_revision (Str "2021.3") ]).
Proof. reflexivity. Qed.

(** With an entry to visit, a missing rerun strategy is found in the first
    pass through the loop body, after both naming functions were called. *)
Example missing_rerun_strategy_run :
  @__init__ Example.namer (Str "MyGame") Example.editor_without_rerun_strategy
    Example.dependencies_in_all
  = (Raise (KeyError "rerun_strategy"),
     [ Getitem_editor "version";
       Call_project_job_id_all (Str "MyGame") (Str "2021.3");
       Call_project_filepath_specific (Str "MyGame") (Str "Win") (Str "d3d11");
       Getitem_editor "version";
       Call_project_job_id_test (Str "MyGame") (Str "Win") (Str "d3d11")
         (Str "standalone") (Str "2021.3");
       Getitem_editor "rerun_strategy" ]).
Proof. reflexivity. Qed.

(** [get_job_definition] called on its own, without the constructor's read of
    the version before it, meets the missing version only inside the loop. *)
Example get_job_definition_missing_version_run :
  @get_job_definition Example.namer (Str "MyGame") Example.editor_without_version
    Example.dependencies_in_all
  = (Raise (KeyError "version"),
     [ Call_project_filepath_specific (Str "MyGame") (Str "Win") (Str "d3d11");
       Getitem_editor "version" ]).
Proof. reflexivity. Qed.

Lemma dependency_count_witness :
  ∃ job tr,
    @get_job_definition Example.namer (Str "MyGame") Example.editor
      Example.dependencies_in_all = (Ok job, tr) ∧
    length (dependencies (YMLJob.yml job)) = 2.
Proof.
  destruct (@dependency_count Example.namer (Str "MyGame") Example.editor
              Example.dependencies_in_all) as [Hcount Hret].
  destruct Hret as (job & tr & E); [eexists; reflexivity..|].
  exists job, tr. split; [exact E|].
  destruct (Hcount job tr E) as [_ Hlen]. rewrite Hlen. reflexivity.
Defined.

Lemma dependency_order_witness :
  ∃ job tr ref,
    @get_job_definition Example.namer (Str "MyGame") Example.editor
      Example.dependencies_in_all = (Ok job, tr) ∧
    dependencies (YMLJob.yml job) !! 1 = Some ref ∧
    @emitted Example.namer (Str "MyGame") Example.editor
      ({| platform_name := Str "Win"; api_name := Str "d3d11";
          test_platform_names := [Str "standalone"; Str "editmode"] |},
       Str "editmode") ref.
Proof.
  destruct (@dependency_order Example.namer (Str "MyGame") Example.editor
              Example.dependencies_in_all) as [Horder Hret].
  destruct Hret as (job & tr & E); [eexists; reflexivity..|].
  destruct (Horder job tr E) as [_ Hpos].
  destruct (Hpos 0 1 _ (Str "editmode") eq_refl eq_refl) as (ref & Href & Hem).
  exists job, tr, ref. split; [exact E|]. split; [exact Href|exact Hem].
Defined.

Lemma dependency_content_witness :
  ∃ job tr,
    @get_job_definition Example.namer (Str "MyGame") Example.editor
      Example.dependencies_in_all = (Ok job, tr) ∧
    YMLJob_add_dependencies (dependencies (YMLJob.yml job)) ∈ tr ∧
    dependencies (YMLJob.yml job)
    = [ {| path := Str ".yamato/MyGame-Win-d3d11.yml#MyGame_Win_d3d11_standalone_2021.3";
           rerun := Str "on-new-revision" |};
        {| path := Str ".yamato/MyGame-Win-d3d11.yml#MyGame_Win_d3d11_editmode_2021.3";
           rerun := Str "on-new-revision" |} ].
Proof.
  exact (@dependency_content Example.namer (Str "MyGame") Example.editor
           Example.dependencies_in_all (Str "2021.3") (Str "on-new-revision")
           eq_refl eq_refl).
Defined.

Lemma job_name_witness :
  ∃ job tr,
    @get_job_definition Example.namer (Str "MyGame") Example.editor
      Example.dependencies_in_all = (Ok job, tr) ∧
    name (YMLJob.yml job) = Some (Str "All MyGame CI - 2021.3").
Proof.
  destruct (@job_name Example.namer (Str "MyGame") Example.editor
              Example.dependencies_in_all) as [Hname Hret].
  destruct Hret as (job & tr & E); [eexists; reflexivity..|].
  exists job, tr. split; [exact E|].
  destruct (Hname job tr E) as (v & Ev & _ & Hn).
  rewrite Hn. injection Ev as <-. reflexivity.
Defined.

Lemma job_custom_revision_witness :
  ∃ job tr,
    @get_job_definition Example.namer (Str "MyGame") Example.editor
      Example.dependencies_in_all = (Ok job, tr) ∧
    custom_revision (YMLJob.yml job) = Some (Str "2021.3").
Proof.
  destruct (@job_custom_revision Example.namer (Str "MyGame") Example.editor
              Example.dependencies_in_all) as [Hrev Hret].
  destruct Hret as (job & tr & E); [eexists; reflexivity..|].
  exists job, tr. split; [exact E|].
  destruct (Hrev job tr E) as (v & Ev & _ & Hr).
  rewrite Hr. injection Ev as <-. reflexivity.
Defined.

Lemma missing_version_witness :
  @__init__ Example.namer (Str "MyGame") Example.editor_without_version
    Example.dependencies_in_all
  = (Raise (KeyError "version"), [Getitem_editor "version"]).
Proof.
  apply (@missing_version Example.namer). reflexivity.
Defined.

Lemma empty_dependencies_witness :
  (∃ job tr,
     @get_job_definition Example.namer (Str "MyGame") Example.editor [] = (Ok job, tr) ∧
     dependencies (YMLJob.yml job) = []) ∧
  (∃ self tr,
     @__init__ Example.namer (Str "MyGame") Example.editor [] = (Ok self, tr) ∧
     dependencies (yml self) = []).
Proof.
  apply (@empty_dependencies Example.namer); eexists; reflexivity.
Defined.

Lemma builder_call_order_witness :
  ∃ job tr,
    @get_job_definition Example.namer (Str "MyGame") Example.editor
      Example.dependencies_in_all = (Ok job, tr) ∧
    calls_in_fixed_order tr.
Proof.
  eexists _, _. split; [reflexivity|].
  eapply (proj1 (@builder_call_order Example.namer (Str "MyGame") Example.editor
                   Example.dependencies_in_all)).
  reflexivity.
Defined.

Lemma rerun_strategy_not_read_witness :
  ∃ self tr,
    @__init__ Example.namer (Str "MyGame") Example.editor_without_rerun_strategy []
    = (Ok self, tr) ∧
    (Getitem_editor "rerun_strategy" ∉ tr) ∧
    dependencies (yml self) = [].
Proof.
  apply (@rerun_strategy_not_read Example.namer); [eexists|]; reflexivity.
Defined.

(** C8, as stated, fails on the scenario of the description: the job is
    built and none of its strings is double-quoted. *)
Lemma force_quoting_counterexample :
  ∃ job tr,
    @get_job_definition Example.namer (Str "MyGame") Example.editor
      Example.dependencies_in_all = (Ok job, tr) ∧
    ¬ ∃ s, s ∈ yaml_scalars (YMLJob.yml job) ∧ is_dss s = true.
Proof.
  eexists _, _. split; [reflexivity|].
  intros (s & Hs & Hq). vm_compute in Hs.
  repeat (apply elem_of_cons in Hs as [->|Hs]; [done|]).
  by apply elem_of_nil in Hs.
Qed.

Lemma quoting_only_from_editor_witness :
  ∃ job tr,
    @get_job_definition Example.namer (Str "MyGame") Example.editor_quoted
      Example.dependencies_in_all = (Ok job, tr) ∧
    name (YMLJob.yml job) = Some (Str "All MyGame CI - 2021.3") ∧
    custom_revision (YMLJob.yml job) = Some (Dss "2021.3") ∧
    (rerun <$> dependencies (YMLJob.yml job))
    = [Str "on-new-revision"; Str "on-new-revision"] ∧
    (Example.editor_quoted !! "version" = Some (Dss "2021.3") ∨
     Example.editor_quoted !! "rerun_strategy" = Some (Dss "2021.3")).
Proof.
  destruct (@get_job_definition Example.namer (Str "MyGame") Example.editor_quoted
              Example.dependencies_in_all) as [[job|e] tr] eqn:E;
    [|vm_compute in E; discriminate E].
  exists job, tr. split; [reflexivity|].
  destruct (@quoting_only_from_editor Example.namer (Str "MyGame") Example.editor_quoted
              Example.dependencies_in_all job tr E)
    as (_ & _ & _ & (v & Ev & Hrev & _) & _ & _ & Hq).
  vm_compute in E. injection E as <- <-.
  split; [reflexivity|]. split; [|split; [reflexivity|]].
  - rewrite Hrev. vm_compute in Ev. injection Ev as <-. reflexivity.
  - apply Hq; [|reflexivity].
    apply (list_elem_of_lookup_2 _ 5). reflexivity.
Defined.

(** ** Every outcome of the loops and of the two methods *)

Section Outcomes.
Context `{Namer} (project_name : scalar) (editor : gmap string scalar).

Local Abbreviation loops dependencies_in_all acc :=
  (for_in dependencies_in_all
     (λ dependencies d,
        for_in (test_platform_names d)
          (append_dependency project_name editor d) dependencies) acc).

Lemma iteration_order_nil_count (dependencies_in_all : list DependencyEntry) :
  iteration_order dependencies_in_all = [] ↔
  count_test_platform_names dependencies_in_all = 0.
Proof.
  rewrite <- length_iteration_order.
  destruct (iteration_order dependencies_in_all); [done|].
  split; intros E; discriminate E.
Qed.





Lemma get_job_definition_nothing (v : scalar) (dependencies_in_all : list DependencyEntry) :
  editor !! "version" = Some v →
  iteration_order dependencies_in_all = [] →
  get_job_definition project_name editor dependencies_in_all
  = (Ok {| YMLJob.yml :=
             {| name := Some (Str ("All " +:+ text project_name +:+ " CI - " +:+ text v));
                dependencies := [];
                custom_revision := Some v |} |},
     construct_events project_name v []).
Proof.
  intros Ev Hit. unfold get_job_definition.
  rewrite loops_nothing by by apply iteration_order_nil_count.
  rewrite (getitem_Some _ _ _ Ev). cbn -[fstring]. by rewrite fstring_name.
Qed.







(** The events of a successful run of [get_job_definition]. *)
Lemma get_job_definition_Ok_trace (dependencies_in_all : list DependencyEntry)
    (job : YMLJob.t) (tr : list event) :
  get_job_definition project_name editor dependencies_in_all = (Ok job, tr) →
  ∃ v, editor !! "version" = Some v ∧
       tr = (iteration_order dependencies_in_all ≫= body_events project_name v)
            ++ construct_events project_name v (dependencies (YMLJob.yml job)).
Proof.
  intros E.
  destruct (get_job_definition_Ok_inv _ _ _ _ _ E) as (v & _ & _ & Ev & _).
  exists v. split; [done|].
  destruct (editor !! "rerun_strategy") as [r|] eqn:Er.
  - rewrite (get_job_definition_Ok _ _ _ v r) in E by done. by simplify_eq.
  - assert (iteration_order dependencies_in_all = []) as Hit.
    { apply iteration_order_nil_count.
      destruct (proj1 (get_job_definition_returns_iff _ _ _)
                  (ex_intro _ job (ex_intro _ tr E))) as [_ [[r' Er']|Hz]]; [|done].
      by rewrite Er in Er'. }
    rewrite (get_job_definition_nothing v) in E by done.
    rewrite Hit. by simplify_eq.
Qed.

Lemma bind_ext {A B : Type} (m : M A) (f g : A → M B) :
  (∀ a, f a = g a) → m ≫= f = m ≫= g.
Proof.
  intros Hfg. destruct m as [[a|e] t]; [|done].
  by rewrite !bind_unfold, Hfg.
Qed.

Lemma for_in_ext {A S : Type} (xs : list A) (body body' : S → A → M S) (s : S) :
  (∀ s x, body s x = body' s x) → for_in xs body s = for_in xs body' s.
Proof.
  intros Hbody. revert s. induction xs as [|x xs IH]; intros s; [done|].
  cbn [for_in]. rewrite Hbody. by apply bind_ext.
Qed.

(** The loops pass over an entry without test platforms. *)
Lemma loops_filter (dependencies_in_all : list DependencyEntry)
    (acc : list DependencyReference) :
  loops (filter (λ d, has_test_platform_names d) dependencies_in_all) acc
  = loops dependencies_in_all acc.
Proof.
  revert acc. induction dependencies_in_all as [|d ds IH]; intros acc; [done|].
  destruct (test_platform_names d) as [|t ts] eqn:Hd.
  - rewrite filter_cons_False
      by (unfold has_test_platform_names; rewrite Hd; exact id).
    cbn [for_in]. rewrite Hd. cbn [for_in]. rewrite ret_bind. apply IH.
  - rewrite filter_cons_True
      by (unfold has_test_platform_names; rewrite Hd; exact I).
    cbn [for_in]. apply bind_ext. intros acc'. apply IH.
Qed.

End Outcomes.

(** ** The object the constructor returns *)

Section Behaviour.
Context `{Namer} (project_name : scalar) (editor : gmap string scalar)
  (dependencies_in_all : list DependencyEntry).

(** X2: the object the constructor returns: [project_name] is the argument,
    [job_id] is [project_job_id_all(project_name, editor["version"])], and
    [yml] is the definition of the job [get_job_definition] returns, whose
    name and custom revision carry the same version and whose dependencies
    are the references emitted for the pairs visited, in order. *)
Theorem constructed_object (self : Project_AllJob.t) (tr : list event) :
  __init__ project_name editor dependencies_in_all = (Ok self, tr) →
  ∃ v job tr',
    editor !! "version" = Some v ∧
    get_job_definition project_name editor dependencies_in_all = (Ok job, tr') ∧
    Project_AllJob.project_name self = project_name ∧
    job_id self = project_job_id_all project_name v ∧
    yml self = YMLJob.yml job ∧
    name (yml self)
    = Some (Str ("All " +:+ text project_name +:+ " CI - " +:+ text v)) ∧
    custom_revision (yml self) = Some v ∧
    Forall2 (emitted project_name editor)
      (iteration_order dependencies_in_all) (dependencies (yml self)).
Proof.
  intros E. apply init_Ok_inv in E as (v & job & tr' & Ev & Ej & -> & _).
  destruct (get_job_definition_Ok_inv _ _ _ _ _ Ej)
    as (v' & refs & pre & Ev' & HF & Hyml & _).
  rewrite Ev in Ev'. injection Ev' as <-.
  exists v, job, tr'. cbn [Project_AllJob.project_name job_id yml].
  rewrite Hyml. done.
Qed.

End Behaviour.

(** ** What happens, and what does not, along a run *)

Section Runs.
Context `{Namer} (project_name : scalar) (editor : gmap string scalar).


(** X7: the events of a successful run, in full.  [get_job_definition] goes
    once through the loop body for every pair in the order of iteration, each
    time calling [project_filepath_specific], reading the version, calling
    [project_job_id_test] and reading the rerun strategy, and then constructs
    the job; the constructor reads the version and calls
    [project_job_id_all] once before that. *)
Theorem events_of_success (dependencies_in_all : list DependencyEntry) :
  (∀ job tr,
     get_job_definition project_name editor dependencies_in_all = (Ok job, tr) →
     ∃ v, editor !! "version" = Some v ∧
          tr = (dt ← iteration_order dependencies_in_all;
                [ Call_project_filepath_specific project_name
                    (platform_name dt.1) (api_name dt.1);
                  Getitem_editor "version";
                  Call_project_job_id_test project_name
                    (platform_name dt.1) (api_name dt.1) dt.2 v;
                  Getitem_editor "rerun_strategy" ])
               ++ [ YMLJob_init;
                    Getitem_editor "version";
                    YMLJob_set_name
                      (Str ("All " +:+ text project_name +:+ " CI - " +:+ text v));
                    YMLJob_add_dependencies (dependencies (YMLJob.yml job));
                    Getitem_editor "version";
                    YMLJob_add_var_custom_revision v ]) ∧
  (∀ self tr,
     __init__ project_name editor dependencies_in_all = (Ok self, tr) →
     ∃ v, editor !! "version" = Some v ∧
          tr = [ Getitem_editor "version"; Call_project_job_id_all project_name v ]
               ++ (dt ← iteration_order dependencies_in_all;
                   [ Call_project_filepath_specific project_name
                       (platform_name dt.1) (api_name dt.1);
                     Getitem_editor "version";
                     Call_project_job_id_test project_name
                       (platform_name dt.1) (api_name dt.1) dt.2 v;
                     Getitem_editor "rerun_strategy" ])
               ++ [ YMLJob_init;
                    Getitem_editor "version";
                    YMLJob_set_name
                      (Str ("All " +:+ text project_name +:+ " CI - " +:+ text v));
                    YMLJob_add_dependencies (dependencies (yml self));
                    Getitem_editor "version";
                    YMLJob_add_var_custom_revision v ]).
Proof.
  split.
  - intros job tr E. by apply get_job_definition_Ok_trace.
  - intros self tr E.
    apply init_Ok_inv in E as (v & job & tr' & Ev & Ej & -> & ->).
    apply get_job_definition_Ok_trace in Ej as (v' & Ev' & ->).
    rewrite Ev in Ev'. injection Ev' as <-. by exists v.
Qed.

(** X8: the job for two lists of entries put one after the other.  When
    [get_job_definition] returns a job for each list, it returns one for
    their concatenation, with the dependencies of the first job followed by
    those of the second and with the same name and custom revision. *)
Theorem dependencies_of_concatenation (first second : list DependencyEntry)
    (job1 job2 : YMLJob.t) (tr1 tr2 : list event) :
  get_job_definition project_name editor first = (Ok job1, tr1) →
  get_job_definition project_name editor second = (Ok job2, tr2) →
  ∃ job tr,
    get_job_definition project_name editor (first ++ second) = (Ok job, tr) ∧
    dependencies (YMLJob.yml job)
    = dependencies (YMLJob.yml job1) ++ dependencies (YMLJob.yml job2) ∧
    name (YMLJob.yml job) = name (YMLJob.yml job1) ∧
    custom_revision (YMLJob.yml job) = custom_revision (YMLJob.yml job1).
Proof.
  intros E1 E2.
  destruct (get_job_definition_Ok_inv _ _ _ _ _ E1) as (v & _ & _ & Ev & _).
  assert (iteration_order (first ++ second)
          = iteration_order first ++ iteration_order second) as Happ
    by apply bind_app.
  destruct (editor !! "rerun_strategy") as [r|] eqn:Er.
  - rewrite (get_job_definition_Ok _ _ _ v r) in E1 by done.
    rewrite (get_job_definition_Ok _ _ _ v r) in E2 by done.
    rewrite (get_job_definition_Ok _ _ _ v r) by done.
    simplify_eq. eexists _, _. split; [done|].
    cbn [YMLJob.yml dependencies name custom_revision].
    by rewrite Happ, fmap_app.
  - assert (∀ l job tr,
      get_job_definition project_name editor l = (Ok job, tr) →
      iteration_order l = []) as Hnil.
    { intros l job tr E. apply iteration_order_nil_count.
      destruct (proj1 (get_job_definition_returns_iff _ _ _)
                  (ex_intro _ job (ex_intro _ tr E))) as [_ [[r' Er']|Hz]]; [|done].
      by rewrite Er in Er'. }
    pose proof (Hnil _ _ _ E1) as H1. pose proof (Hnil _ _ _ E2) as H2.
    rewrite (get_job_definition_nothing _ _ v) in E1 by done.
    rewrite (get_job_definition_nothing _ _ v) in E2 by done.
    rewrite H1, H2 in Happ.
    rewrite (get_job_definition_nothing _ _ v) by done.
    simplify_eq. by eexists _, _.
Qed.

(** X10: an entry without test platform names is passed over: dropping such
    entries from the list changes neither the result nor the events of
    [get_job_definition] and of the constructor, whatever [editor] holds. *)
Theorem entries_without_test_platforms_are_skipped
    (dependencies_in_all : list DependencyEntry) :
  get_job_definition project_name editor
    (filter (λ d, has_test_platform_names d) dependencies_in_all)
  = get_job_definition project_name editor dependencies_in_all ∧
  __init__ project_name editor
    (filter (λ d, has_test_platform_names d) dependencies_in_all)
  = __init__ project_name editor dependencies_in_all.
Proof.
  assert (get_job_definition project_name editor
            (filter (λ d, has_test_platform_names d) dependencies_in_all)
          = get_job_definition project_name editor dependencies_in_all) as Hjob.
  { unfold get_job_definition. by rewrite loops_filter. }
  split; [done|].
  unfold __init__. by rewrite Hjob.
Qed.

End Runs.

Section Keys.
Context `{Namer} (project_name : scalar) (editor editor' : gmap string scalar)
  (dependencies_in_all : list DependencyEntry).

(** X9: of [editor] only the keys ["version"] and ["rerun_strategy"] count:
    two editors that agree on both, present or absent, give the same result
    and the same events, for [get_job_definition] and for the constructor. *)
Theorem only_version_and_rerun_strategy_count :
  editor !! "version" = editor' !! "version" →
  editor !! "rerun_strategy" = editor' !! "rerun_strategy" →
  get_job_definition project_name editor dependencies_in_all
  = get_job_definition project_name editor' dependencies_in_all ∧
  __init__ project_name editor dependencies_in_all
  = __init__ project_name editor' dependencies_in_all.
Proof.
  intros Hv Hr.
  assert (getitem editor "version" = getitem editor' "version") as Gv
    by (unfold getitem; by rewrite Hv).
  assert (getitem editor "rerun_strategy" = getitem editor' "rerun_strategy") as Gr
    by (unfold getitem; by rewrite Hr).
  assert (∀ d acc t,
    append_dependency project_name editor d acc t
    = append_dependency project_name editor' d acc t) as Hbody.
  { intros d acc t. unfold append_dependency. by rewrite Gv, Gr. }
  assert (get_job_definition project_name editor dependencies_in_all
          = get_job_definition project_name editor' dependencies_in_all) as Hjob.
  { unfold get_job_definition. rewrite Gv. f_equal.
    apply for_in_ext. intros acc d. apply for_in_ext. intros acc' t. apply Hbody. }
  split; [done|].
  unfold __init__. by rewrite Gv, Hjob.
Qed.

End Keys.

(** ** These properties on concrete runs *)

Lemma constructed_object_witness :
  ∃ self,
    (@__init__ Example.namer (Str "MyGame") Example.editor
       Example.dependencies_in_all).1 = Ok self ∧
    Project_AllJob.project_name self = Str "MyGame" ∧
    job_id self = Str "All_MyGame_2021.3".
Proof.
  eexists. split; [reflexivity|].
  destruct (@constructed_object Example.namer (Str "MyGame") Example.editor
              Example.dependencies_in_all _ _ eq_refl)
    as (v & job & tr' & Ev & _ & Hname & Hid & _).
  split; [exact Hname|].
  rewrite Hid. vm_compute in Ev. injection Ev as <-. reflexivity.
Defined.


Lemma events_of_success_witness :
  ∃ job tr,
    @get_job_definition Example.namer (Str "MyGame") Example.editor
      Example_more.dependencies_with_gaps = (Ok job, tr) ∧
    length tr = 14.
Proof.
  destruct (@get_job_definition Example.namer (Str "MyGame") Example.editor
              Example_more.dependencies_with_gaps) as [[job|e] tr] eqn:E.
  - exists job, tr. split; [reflexivity|].
    destruct (proj1 (@events_of_success Example.namer (Str "MyGame") Example.editor
                       Example_more.dependencies_with_gaps) job tr E)
      as (v & _ & ->).
    reflexivity.
  - vm_compute in E. discriminate E.
Defined.

Lemma dependencies_of_concatenation_witness :
  ∃ job tr,
    @get_job_definition Example.namer (Str "MyGame") Example.editor
      (Example.dependencies_in_all ++ Example_more.more_dependencies) = (Ok job, tr) ∧
    path <$> dependencies (YMLJob.yml job)
    = [ Str ".yamato/MyGame-Win-d3d11.yml#MyGame_Win_d3d11_standalone_2021.3";
        Str ".yamato/MyGame-Win-d3d11.yml#MyGame_Win_d3d11_editmode_2021.3";
        Str ".yamato/MyGame-OSX-Metal.yml#MyGame_OSX_Metal_playmode_2021.3" ].
Proof.
  destruct (@dependencies_of_concatenation Example.namer (Str "MyGame") Example.editor
              Example.dependencies_in_all Example_more.more_dependencies
              _ _ _ _ eq_refl eq_refl) as (job & tr & E & Hdeps & _).
  exists job, tr. split; [exact E|].
  rewrite Hdeps. reflexivity.
Defined.

Lemma only_version_and_rerun_strategy_count_witness :
  @get_job_definition Example.namer (Str "MyGame") Example.editor
    Example.dependencies_in_all
  = @get_job_definition Example.namer (Str "MyGame") Example_more.editor_with_more_keys
      Example.dependencies_in_all ∧
  @__init__ Example.namer (Str "MyGame") Example.editor Example.dependencies_in_all
  = @__init__ Example.namer (Str "MyGame") Example_more.editor_with_more_keys
      Example.dependencies_in_all.
Proof.
  apply (@only_version_and_rerun_strategy_count Example.namer); reflexivity.
Defined.

(** ** Entries as dictionaries: how the two forms of the methods agree *)

Section DictLoops.
Context `{Namer} (project_name : scalar) (editor : gmap string scalar).

Local Abbreviation dict_loops dependencies_in_all acc :=
  (for_in dependencies_in_all
     (λ dependencies d,
        d_test_platform_names ←
          Dict.entry_getitem (Dict.test_platform_names d) "test_platform_names";
        for_in d_test_platform_names
          (Dict.append_dependency project_name editor d) dependencies) acc).

Lemma entry_getitem_Some {A : Type} (v : A) (key : string) :
  Dict.entry_getitem (Some v) key = mret v.
Proof. done. Qed.

Lemma entry_getitem_Ok_inv {A : Type} (field : option A) (key : string) (v : A)
    (tr : list event) :
  Dict.entry_getitem field key = (Ok v, tr) → field = Some v ∧ tr = [].
Proof.
  destruct field as [w|]; [|done]. intros E. by apply ret_Ok_inv in E as [-> ->].
Qed.

Lemma dict_append_dependency_readable (d : Dict.entry)
    (acc : list DependencyReference) (t : scalar) :
  is_Some (Dict.platform_name d) →
  is_Some (Dict.api_name d) →
  Dict.append_dependency project_name editor d acc t
  = append_dependency project_name editor (entry_of_dict d) acc t.
Proof.
  intros [pl Hpl] [a Ha]. destruct d as [d_pl d_a d_names].
  cbn in Hpl, Ha. subst d_pl d_a.
  unfold Dict.append_dependency, append_dependency, entry_of_dict, getitem.
  by destruct (editor !! "version"), (editor !! "rerun_strategy").
Qed.

Lemma dict_append_dependency_Ok_inv (d : Dict.entry)
    (acc acc' : list DependencyReference) (t : scalar) (tr : list event) :
  Dict.append_dependency project_name editor d acc t = (Ok acc', tr) →
  is_Some (Dict.platform_name d) ∧ is_Some (Dict.api_name d).
Proof.
  unfold Dict.append_dependency. intros E.
  apply bind_Ok_inv in E as (pl & t1 & t2 & Epl & E & _).
  apply entry_getitem_Ok_inv in Epl as [Hpl _].
  apply bind_Ok_inv in E as (a & t3 & t4 & Ea & _ & _).
  apply entry_getitem_Ok_inv in Ea as [Ha _].
  split; by eexists.
Qed.

Lemma dict_loops_readable (dependencies_in_all : list Dict.entry)
    (acc : list DependencyReference) :
  Forall Dict.readable dependencies_in_all →
  dict_loops dependencies_in_all acc
  = for_in (entry_of_dict <$> dependencies_in_all)
      (λ dependencies d,
         for_in (test_platform_names d)
           (append_dependency project_name editor d) dependencies) acc.
Proof.
  intros Hall. revert acc.
  induction Hall as [|d ds [[names Hnames] Hd] _ IH]; intros acc; [done|].
  rewrite fmap_cons. cbn [for_in].
  change (test_platform_names (entry_of_dict d)) with (Dict.names d).
  unfold Dict.names in Hd |- *. rewrite Hnames in Hd |- *.
  change (default [] (Some names)) with names in Hd |- *.
  rewrite entry_getitem_Some, ret_bind.
  destruct names as [|t ts].
  - cbn [for_in]. rewrite !ret_bind. apply IH.
  - destruct Hd as [Hpl Ha]; [done|].
    rewrite (for_in_ext (t :: ts) _
               (append_dependency project_name editor (entry_of_dict d)))
      by (intros s x; by apply dict_append_dependency_readable).
    apply bind_ext. intros acc'. apply IH.
Qed.

Lemma dict_loops_Ok_inv (dependencies_in_all : list Dict.entry)
    (acc acc' : list DependencyReference) (tr : list event) :
  dict_loops dependencies_in_all acc = (Ok acc', tr) →
  Forall Dict.readable dependencies_in_all.
Proof.
  revert acc tr. induction dependencies_in_all as [|d ds IH]; intros acc tr E;
    [constructor|].
  cbn [for_in] in E.
  apply bind_Ok_inv in E as (acc1 & t1 & t2 & E1 & E2 & _).
  apply bind_Ok_inv in E1 as (names & t3 & t4 & En & Ei & _).
  apply entry_getitem_Ok_inv in En as [Hnames _].
  constructor; [|by eapply IH].
  split; [by eexists|].
  unfold Dict.names. rewrite Hnames.
  change (default [] (Some names)) with names.
  destruct names as [|t ts]; [done|]. intros _.
  cbn [for_in] in Ei.
  apply bind_Ok_inv in Ei as (acc2 & t5 & t6 & Eb & _ & _).
  by eapply dict_append_dependency_Ok_inv.
Qed.

Lemma dict_count (dependencies_in_all : list Dict.entry) :
  count_test_platform_names (entry_of_dict <$> dependencies_in_all)
  = Dict.count_test_platform_names dependencies_in_all.
Proof.
  unfold count_test_platform_names, Dict.count_test_platform_names.
  induction dependencies_in_all as [|d ds IH]; [done|].
  rewrite fmap_cons. cbn [sum_list_with]. by rewrite IH.
Qed.

Lemma dict_get_job_definition_readable (dependencies_in_all : list Dict.entry) :
  Forall Dict.readable dependencies_in_all →
  Dict.get_job_definition project_name editor dependencies_in_all
  = get_job_definition project_name editor (entry_of_dict <$> dependencies_in_all).
Proof.
  intros Hall. unfold Dict.get_job_definition, get_job_definition.
  by rewrite dict_loops_readable.
Qed.

Lemma dict_init_readable (dependencies_in_all : list Dict.entry) :
  Forall Dict.readable dependencies_in_all →
  Dict.__init__ project_name editor dependencies_in_all
  = __init__ project_name editor (entry_of_dict <$> dependencies_in_all).
Proof.
  intros Hall. unfold Dict.__init__, __init__.
  by rewrite dict_get_job_definition_readable.
Qed.

(** On entries that carry their three keys the two forms are the same. *)
Lemma dict_of_entries (dependencies_in_all : list DependencyEntry) :
  Dict.get_job_definition project_name editor (dict_of_entry <$> dependencies_in_all)
  = get_job_definition project_name editor dependencies_in_all ∧
  Dict.__init__ project_name editor (dict_of_entry <$> dependencies_in_all)
  = __init__ project_name editor dependencies_in_all.
Proof.
  assert (Forall Dict.readable (dict_of_entry <$> dependencies_in_all)) as Hall.
  { apply Forall_fmap, Forall_forall. intros d _. split; [by eexists|].
    intros _. split; by eexists. }
  assert (entry_of_dict <$> (dict_of_entry <$> dependencies_in_all)
          = dependencies_in_all) as Hid.
  { rewrite <- list_fmap_compose. rewrite <- (list_fmap_id dependencies_in_all) at 2.
    apply list_fmap_ext. intros i [pl a ns] _. done. }
  rewrite dict_get_job_definition_readable, dict_init_readable by done.
  by rewrite Hid.
Qed.

End DictLoops.

(** ** Entries as dictionaries: outcomes *)

Section DictOutcomes.
Context `{Namer} (project_name : scalar) (editor : gmap string scalar).

Local Abbreviation dict_loops dependencies_in_all acc :=
  (for_in dependencies_in_all
     (λ dependencies d,
        d_test_platform_names ←
          Dict.entry_getitem (Dict.test_platform_names d) "test_platform_names";
        for_in d_test_platform_names
          (Dict.append_dependency project_name editor d) dependencies) acc).

Lemma dict_get_job_definition_returns_iff (dependencies_in_all : list Dict.entry) :
  (∃ job tr,
     Dict.get_job_definition project_name editor dependencies_in_all = (Ok job, tr))
  ↔ is_Some (editor !! "version") ∧
    Forall Dict.readable dependencies_in_all ∧
    (is_Some (editor !! "rerun_strategy") ∨
     Dict.count_test_platform_names dependencies_in_all = 0).
Proof.
  rewrite <- dict_count. split.
  - intros (job & tr & E).
    assert (Forall Dict.readable dependencies_in_all) as Hall.
    { unfold Dict.get_job_definition in E.
      apply bind_Ok_inv in E as (refs & t1 & t2 & E1 & _ & _).
      by eapply dict_loops_Ok_inv. }
    rewrite dict_get_job_definition_readable in E by done.
    destruct (proj1 (get_job_definition_returns_iff _ _ _)
                (ex_intro _ job (ex_intro _ tr E))) as [Hv Hr].
    done.
  - intros (Hv & Hall & Hr).
    rewrite dict_get_job_definition_readable by done.
    by apply get_job_definition_returns_iff.
Qed.

(** The loops pass over leading entries whose list of test platforms is
    there and empty. *)
Lemma dict_loops_skip (skipped dependencies_in_all : list Dict.entry)
    (acc : list DependencyReference) :
  Forall (λ d, Dict.test_platform_names d = Some []) skipped →
  dict_loops (skipped ++ dependencies_in_all) acc = dict_loops dependencies_in_all acc.
Proof.
  intros Hskip. revert acc.
  induction Hskip as [|d ds Hd _ IH]; intros acc; [done|].
  cbn [app for_in]. rewrite Hd, entry_getitem_Some, ret_bind.
  cbn [for_in]. rewrite ret_bind. apply IH.
Qed.

(** When the first pass through the loop body raises, so do the loops. *)
Lemma dict_loops_first_pass_raises (e : exn) (events : list event)
    (skipped rest : list Dict.entry) (d : Dict.entry) (t : scalar) (ts : list scalar)
    (acc : list DependencyReference) :
  Forall (λ d, Dict.test_platform_names d = Some []) skipped →
  Dict.test_platform_names d = Some (t :: ts) →
  Dict.append_dependency project_name editor d acc t = (Raise e, events) →
  dict_loops (skipped ++ d :: rest) acc = (Raise e, events).
Proof.
  intros Hskip Hd Hbody. rewrite dict_loops_skip by done.
  cbn [for_in]. rewrite Hd, entry_getitem_Some, ret_bind.
  cbn [for_in]. by rewrite Hbody.
Qed.

Lemma dict_init_unfold (v : scalar) (dependencies_in_all : list Dict.entry) :
  editor !! "version" = Some v →
  Dict.__init__ project_name editor dependencies_in_all
  = (match (Dict.get_job_definition project_name editor dependencies_in_all).1 with
     | Ok job => Ok {| Project_AllJob.project_name := project_name;
                       job_id := project_job_id_all project_name v;
                       yml := YMLJob.yml job |}
     | Raise e => Raise e
     end,
     Getitem_editor "version" :: Call_project_job_id_all project_name v
       :: (Dict.get_job_definition project_name editor dependencies_in_all).2).
Proof.
  intros Ev. unfold Dict.__init__. rewrite (getitem_Some _ _ _ Ev).
  destruct (Dict.get_job_definition project_name editor dependencies_in_all)
    as [[job|e] tr]; cbn; [by rewrite app_nil_r|done].
Qed.

Lemma dict_init_no_version (dependencies_in_all : list Dict.entry) :
  editor !! "version" = None →
  Dict.__init__ project_name editor dependencies_in_all
  = (Raise (KeyError "version"), [Getitem_editor "version"]).
Proof. intros Ev. unfold Dict.__init__. by rewrite (getitem_None _ _ Ev). Qed.

(** *** Which exceptions a computation can raise *)

Lemma raises_in_ret {A : Type} (P : exn → Prop) (a : A) : raises_in P (mret a : M A).
Proof. intros e E. discriminate E. Qed.

Lemma raises_in_log (P : exn → Prop) (ev : event) : raises_in P (log ev).
Proof. intros e E. discriminate E. Qed.

Lemma raises_in_bind {A B : Type} (P : exn → Prop) (m : M A) (f : A → M B) :
  raises_in P m → (∀ a, raises_in P (f a)) → raises_in P (m ≫= f).
Proof.
  intros Hm Hf e. destruct m as [[a|e'] t].
  - rewrite bind_unfold. cbn [fst]. apply Hf.
  - cbn. intros E. injection E as <-. by apply Hm.
Qed.

Lemma raises_in_for_in {A S : Type} (P : exn → Prop) (xs : list A)
    (body : S → A → M S) (s : S) :
  (∀ s x, x ∈ xs → raises_in P (body s x)) → raises_in P (for_in xs body s).
Proof.
  revert s. induction xs as [|x xs IH]; intros s Hbody.
  - apply raises_in_ret.
  - cbn [for_in]. apply raises_in_bind.
    + apply Hbody. apply elem_of_cons. by left.
    + intros s'. apply IH. intros s'' y Hy. apply Hbody. apply elem_of_cons. by right.
Qed.

Lemma raises_in_getitem (P : exn → Prop) (key : string) :
  (editor !! key = None → P (KeyError key)) → raises_in P (getitem editor key).
Proof.
  intros HP e. unfold getitem. destruct (editor !! key) as [v|]; [done|].
  cbn. intros E. simplify_eq. by apply HP.
Qed.

Lemma raises_in_entry_getitem {A : Type} (P : exn → Prop) (field : option A)
    (key : string) :
  (field = None → P (KeyError key)) → raises_in P (Dict.entry_getitem field key).
Proof.
  intros HP e. destruct field as [v|]; [done|].
  cbn. intros E. simplify_eq. by apply HP.
Qed.

Lemma dict_get_job_definition_raises_in (dependencies_in_all : list Dict.entry) :
  raises_in (λ e, ∃ key, e = KeyError key ∧ Dict.missing editor dependencies_in_all key)
    (Dict.get_job_definition project_name editor dependencies_in_all).
Proof.
  set (P := λ e, ∃ key, e = KeyError key ∧ Dict.missing editor dependencies_in_all key).
  assert (raises_in P (getitem editor "version")) as Hversion.
  { apply raises_in_getitem. intros Ev. eexists. split; [done|]. by left. }
  assert (raises_in P (getitem editor "rerun_strategy")) as Hrerun.
  { apply raises_in_getitem. intros Er. eexists. split; [done|]. right. by left. }
  unfold Dict.get_job_definition.
  apply raises_in_bind.
  { apply raises_in_for_in. intros acc d Hd.
    apply raises_in_bind.
    { apply raises_in_entry_getitem. intros Hn. eexists. split; [done|].
      do 2 right. left. split; [done|]. by exists d. }
    intros names. apply raises_in_for_in. intros acc' t _.
    assert (raises_in P (Dict.entry_getitem (Dict.platform_name d) "platform_name"))
      as Hpl.
    { apply raises_in_entry_getitem. intros Hn. eexists. split; [done|].
      do 3 right. left. split; [done|]. by exists d. }
    assert (raises_in P (Dict.entry_getitem (Dict.api_name d) "api_name")) as Ha.
    { apply raises_in_entry_getitem. intros Hn. eexists. split; [done|].
      do 4 right. split; [done|]. by exists d. }
    unfold Dict.append_dependency.
    apply raises_in_bind; [done|intros pl].
    apply raises_in_bind; [done|intros a].
    apply raises_in_bind; [apply raises_in_log|intros _].
    apply raises_in_bind; [done|intros pl'].
    apply raises_in_bind; [done|intros a'].
    apply raises_in_bind; [done|intros v].
    apply raises_in_bind; [apply raises_in_log|intros _].
    apply raises_in_bind; [done|intros r].
    apply raises_in_ret. }
  intros refs.
  apply raises_in_bind; [by intros e E|intros job].
  apply raises_in_bind; [done|intros v].
  apply raises_in_bind; [by intros e E|intros job'].
  apply raises_in_bind; [by intros e E|intros job''].
  apply raises_in_bind; [done|intros v'].
  apply raises_in_bind; [by intros e E|intros job'''].
  apply raises_in_ret.
Qed.

End DictOutcomes.

(** ** Entries as dictionaries: when the methods return, and what they raise *)

Section DictBehaviour.
Context `{Namer} (project_name : scalar) (editor : gmap string scalar).

(** X1: [get_job_definition] and the constructor return under the same
    condition, and exactly then: [editor] has a version; every entry has the
    key ["test_platform_names"] and, when the list under it is not empty, the
    keys ["platform_name"] and ["api_name"]; and [editor] has a rerun
    strategy or all these lists are empty. *)
Theorem dict_returns_iff (dependencies_in_all : list Dict.entry) :
  ((∃ job tr,
      Dict.get_job_definition project_name editor dependencies_in_all = (Ok job, tr))
   ↔ is_Some (editor !! "version") ∧
     Forall Dict.readable dependencies_in_all ∧
     (is_Some (editor !! "rerun_strategy") ∨
      Dict.count_test_platform_names dependencies_in_all = 0)) ∧
  ((∃ self tr,
      Dict.__init__ project_name editor dependencies_in_all = (Ok self, tr))
   ↔ is_Some (editor !! "version") ∧
     Forall Dict.readable dependencies_in_all ∧
     (is_Some (editor !! "rerun_strategy") ∨
      Dict.count_test_platform_names dependencies_in_all = 0)).
Proof.
  split; [apply dict_get_job_definition_returns_iff|].
  rewrite <- dict_get_job_definition_returns_iff. split.
  - intros (self & tr & E).
    destruct (editor !! "version") as [v|] eqn:Ev.
    + rewrite (dict_init_unfold _ _ v) in E by done.
      destruct (Dict.get_job_definition project_name editor dependencies_in_all)
        as [[job|e] tr'] eqn:Ej; cbn [fst snd] in E; [|done].
      by exists job, tr'.
    + by rewrite dict_init_no_version in E.
  - intros (job & tr & Ej).
    destruct (proj1 (dict_get_job_definition_returns_iff _ _ _)
                (ex_intro _ job (ex_intro _ tr Ej))) as [[v Ev] _].
    rewrite (dict_init_unfold _ _ v) by done. rewrite Ej. cbn [fst snd].
    by eexists _, _.
Qed.

(** X3: [editor] has a version and no rerun strategy, and the loops reach a
    first pair: the entries before [d] have an empty list of test platforms,
    [d] has the list [t :: ts] and its two names.  Then the constructor raises
    [KeyError] for ["rerun_strategy"] in the first pass through the loop
    body, whatever the entries after [d] hold: each naming function has been
    called once and the builder has not been created. *)
Theorem dict_missing_rerun_strategy (v pl a t : scalar) (ts : list scalar)
    (skipped rest : list Dict.entry) (d : Dict.entry) :
  editor !! "version" = Some v →
  editor !! "rerun_strategy" = None →
  Forall (λ d', Dict.test_platform_names d' = Some []) skipped →
  Dict.test_platform_names d = Some (t :: ts) →
  Dict.platform_name d = Some pl →
  Dict.api_name d = Some a →
  Dict.__init__ project_name editor (skipped ++ d :: rest)
  = (Raise (KeyError "rerun_strategy"),
     [ Getitem_editor "version";
       Call_project_job_id_all project_name v;
       Call_project_filepath_specific project_name pl a;
       Getitem_editor "version";
       Call_project_job_id_test project_name pl a t v;
       Getitem_editor "rerun_strategy" ]).
Proof.
  intros Ev Er Hskip Hd Hpl Ha.
  rewrite (dict_init_unfold _ _ v) by done.
  unfold Dict.get_job_definition.
  rewrite (dict_loops_first_pass_raises _ _ (KeyError "rerun_strategy")
             [ Call_project_filepath_specific project_name pl a;
               Getitem_editor "version";
               Call_project_job_id_test project_name pl a t v;
               Getitem_editor "rerun_strategy" ] _ _ _ t ts); [done|done|done|].
  unfold Dict.append_dependency.
  by rewrite Hpl, Ha, (getitem_Some _ _ _ Ev), (getitem_None _ _ Er).
Qed.

(** X4: without a version in [editor], [get_job_definition] called on its
    own never returns a job.  When the loops reach a first pair, as in X3, it
    raises [KeyError] for ["version"] in the first pass through the loop
    body, after one call of [project_filepath_specific]; when every entry has
    an empty list of test platforms, it raises it right after creating the
    builder, before anything is set on it. *)
Theorem dict_without_version :
  editor !! "version" = None →
  (∀ dependencies_in_all job tr,
     Dict.get_job_definition project_name editor dependencies_in_all ≠ (Ok job, tr)) ∧
  (∀ pl a t ts skipped rest d,
     Forall (λ d', Dict.test_platform_names d' = Some []) skipped →
     Dict.test_platform_names d = Some (t :: ts) →
     Dict.platform_name d = Some pl →
     Dict.api_name d = Some a →
     Dict.get_job_definition project_name editor (skipped ++ d :: rest)
     = (Raise (KeyError "version"),
        [ Call_project_filepath_specific project_name pl a;
          Getitem_editor "version" ])) ∧
  (∀ dependencies_in_all,
     Forall (λ d', Dict.test_platform_names d' = Some []) dependencies_in_all →
     Dict.get_job_definition project_name editor dependencies_in_all
     = (Raise (KeyError "version"), [ YMLJob_init; Getitem_editor "version" ])).
Proof.
  intros Ev. split; [|split].
  - intros dependencies_in_all job tr E.
    destruct (proj1 (dict_get_job_definition_returns_iff _ _ _)
                (ex_intro _ job (ex_intro _ tr E))) as [[v Ev'] _].
    by rewrite Ev in Ev'.
  - intros pl a t ts skipped rest d Hskip Hd Hpl Ha.
    unfold Dict.get_job_definition.
    rewrite (dict_loops_first_pass_raises _ _ (KeyError "version")
               [ Call_project_filepath_specific project_name pl a;
                 Getitem_editor "version" ] _ _ _ t ts); [done|done|done|].
    unfold Dict.append_dependency.
    by rewrite Hpl, Ha, (getitem_None _ _ Ev).
  - intros dependencies_in_all Hall.
    unfold Dict.get_job_definition.
    rewrite <- (app_nil_r dependencies_in_all).
    rewrite (dict_loops_skip _ _ _ []) by done.
    cbn [for_in]. rewrite ret_bind.
    by rewrite (getitem_None _ _ Ev).
Qed.

(** X5: the only exceptions of the two methods are [KeyError] for one of
    the five keys they read, raised when that key is absent: ["version"] or
    ["rerun_strategy"] absent from [editor], or ["test_platform_names"],
    ["platform_name"] or ["api_name"] absent from some entry. *)
Theorem dict_raises_only_missing_keys (dependencies_in_all : list Dict.entry) :
  (∀ e tr,
     Dict.get_job_definition project_name editor dependencies_in_all = (Raise e, tr) →
     ∃ key, e = KeyError key ∧ Dict.missing editor dependencies_in_all key) ∧
  (∀ e tr,
     Dict.__init__ project_name editor dependencies_in_all = (Raise e, tr) →
     ∃ key, e = KeyError key ∧ Dict.missing editor dependencies_in_all key).
Proof.
  split.
  - intros e tr E.
    apply (dict_get_job_definition_raises_in project_name editor dependencies_in_all e).
    by rewrite E.
  - intros e tr E.
    destruct (editor !! "version") as [v|] eqn:Ev.
    + rewrite (dict_init_unfold _ _ v) in E by done.
      destruct (Dict.get_job_definition project_name editor dependencies_in_all)
        as [[job|e'] tr'] eqn:Ej; cbn [fst snd] in E; [done|].
      simplify_eq.
      apply (dict_get_job_definition_raises_in project_name editor
               dependencies_in_all e).
      by rewrite Ej.
    + rewrite dict_init_no_version in E by done. simplify_eq.
      exists "version". split; [done|]. by left.
Qed.

End DictBehaviour.

(** ** These properties on concrete runs with dictionaries *)

Lemma dict_missing_rerun_strategy_witness :
  @Dict.__init__ Example.namer (Str "MyGame") Example.editor_without_rerun_strategy
    Example_dict.dependencies_in_all
  = (Raise (KeyError "rerun_strategy"),
     [ Getitem_editor "version";
       Call_project_job_id_all (Str "MyGame") (Str "2021.3");
       Call_project_filepath_specific (Str "MyGame") (Str "Win") (Str "d3d11");
       Getitem_editor "version";
       Call_project_job_id_test (Str "MyGame") (Str "Win") (Str "d3d11")
         (Str "standalone") (Str "2021.3");
       Getitem_editor "rerun_strategy" ]).
Proof.
  apply (@dict_missing_rerun_strategy Example.namer (Str "MyGame")
           Example.editor_without_rerun_strategy
           (Str "2021.3") (Str "Win") (Str "d3d11") (Str "standalone") [Str "editmode"]
           [ {| Dict.platform_name := None; Dict.api_name := None;
                Dict.test_platform_names := Some [] |} ]
           []); try reflexivity.
  repeat constructor.
Defined.

Lemma dict_without_version_witness :
  @Dict.get_job_definition Example.namer (Str "MyGame") Example.editor_without_version
    Example_dict.dependencies_in_all
  = (Raise (KeyError "version"),
     [ Call_project_filepath_specific (Str "MyGame") (Str "Win") (Str "d3d11");
       Getitem_editor "version" ]).
Proof.
  destruct (@dict_without_version Example.namer (Str "MyGame")
              Example.editor_without_version eq_refl) as (_ & Hfirst & _).
  apply (Hfirst (Str "Win") (Str "d3d11") (Str "standalone") [Str "editmode"]
           [ {| Dict.platform_name := None; Dict.api_name := None;
                Dict.test_platform_names := Some [] |} ]
           []); try reflexivity.
  repeat constructor.
Defined.

Lemma dict_raises_only_missing_keys_witness :
  ∃ tr,
    @Dict.get_job_definition Example.namer (Str "MyGame") Example.editor
      Example_dict.dependencies_without_platform_name
    = (Raise (KeyError "platform_name"), tr) ∧
    Dict.missing Example.editor Example_dict.dependencies_without_platform_name
      "platform_name".
Proof.
  eexists. split; [reflexivity|].
  destruct (proj1 (@dict_raises_only_missing_keys Example.namer (Str "MyGame")
                     Example.editor Example_dict.dependencies_without_platform_name)
              _ _ eq_refl) as (key & Hkey & Hmissing).
  injection Hkey as <-. exact Hmissing.
Defined.

(** An entry without ["test_platform_names"] stops the constructor before any
    call for that entry, though [editor] has both keys. *)
Example dict_missing_test_platform_names_run :
  @Dict.__init__ Example.namer (Str "MyGame") Example.editor
    Example_dict.dependencies_without_test_platform_names
  = (Raise (KeyError "test_platform_names"),
     [ Getitem_editor "version";
       Call_project_job_id_all (Str "MyGame") (Str "2021.3") ]).
Proof. reflexivity. Qed.

Lemma dict_returns_iff_witness :
  ∃ job tr,
    @Dict.get_job_definition Example.namer (Str "MyGame") Example.editor
      Example_dict.dependencies_in_all = (Ok job, tr).
Proof.
  apply (proj1 (@dict_returns_iff Example.namer (Str "MyGame") Example.editor
                  Example_dict.dependencies_in_all)).
  split; [eexists; reflexivity|]. split.
  - constructor; [|constructor; [|constructor]].
    + split; [eexists; reflexivity|].
      intros Hnames. exfalso. apply Hnames. reflexivity.
    + split; [eexists; reflexivity|].
      intros _. split; eexists; reflexivity.
  - left. eexists. reflexivity.
Defined.
